(** * bulk_filigrane: the upload / poll / download pipeline

    A shallow embedding of [src/bulk_filigrane/main.py].  The program talks
    to a remote watermarking service and to the local file system; both are
    modelled by an explicit world (file contents, open file handles, the
    history of calls, the console) and by an environment that answers every
    call from the history so far.  Python exceptions are an explicit
    outcome. *)

From stdpp Require Import gmap strings list fin_maps pretty sorting.
From Stdlib Require Import ZArith Ascii.

#[local] Set Warnings "-register-all,-clear-no-such-hyp".
#[local] Open Scope Z_scope.

(** ** Strings *)

Definition nl : string := String (ascii_of_nat 10) EmptyString.
Definition cr : string := String (ascii_of_nat 13) EmptyString.

(** [sep.join(l)] *)
Fixpoint join (sep : string) (l : list string) : string :=
  match l with
  | [] => EmptyString
  | [x] => x
  | x :: rest => x +:+ sep +:+ join sep rest
  end.

(** The part of [s] after the last occurrence of [c], if [c] occurs. *)
Fixpoint after_last (c : ascii) (s : string) : option string :=
  match s with
  | EmptyString => None
  | String a rest =>
      match after_last c rest with
      | Some t => Some t
      | None => if Ascii.eqb a c then Some rest else None
      end
  end.

(** [str.lower] on the ASCII letters. *)
Definition lower_ascii (a : ascii) : ascii :=
  let n := nat_of_ascii a in
  if ((65 <=? n) && (n <=? 90))%nat then ascii_of_nat (n + 32) else a.

Fixpoint lower (s : string) : string :=
  match s with
  | EmptyString => EmptyString
  | String a rest => String (lower_ascii a) (lower rest)
  end.

(** [s.replace(c, "")] for a one-character [c]. *)
Fixpoint remove_char (c : ascii) (s : string) : string :=
  match s with
  | EmptyString => EmptyString
  | String a rest =>
      if Ascii.eqb a c then remove_char c rest else String a (remove_char c rest)
  end.

(** [needle in s] on strings. *)
Fixpoint is_substring (needle s : string) : bool :=
  String.prefix needle s ||
  match s with
  | EmptyString => false
  | String _ rest => is_substring needle rest
  end.

(** ** Paths

    A [Path] is modelled by its textual form. *)

(** [Path.name]: the final component. *)
Definition path_name (p : string) : string :=
  default p (after_last "/" p).

(** [Path.suffix]: the last dot of the name and what follows it, unless the
    dot is the first or the last character of the name. *)
Definition path_suffix (p : string) : string :=
  let name := path_name p in
  match after_last "." name with
  | Some t =>
      if ((0 <? String.length t) && (String.length t + 1 <? String.length name))%nat
      then "." +:+ t
      else EmptyString
  | None => EmptyString
  end.

(** [dir / name], both in normalised form: an absolute [name] replaces
    [dir], and the current directory is dropped. *)
Definition path_join (dir name : string) : string :=
  if String.prefix "/" name then name
  else if String.eqb dir "." || String.eqb dir EmptyString then name
  else if String.eqb dir "/" then "/" +:+ name
  else dir +:+ "/" +:+ name.

Definition get_file_ext (file : string) : string :=
  remove_char "." (lower (path_suffix file)).

Definition CONTENT_TYPES : gmap string string :=
  list_to_map
    [ ("jpg", "image/jpeg"); ("jpeg", "image/jpeg"); ("png", "image/png");
      ("heic", "image/heic"); ("pdf", "application/pdf") ].

(** ** Python values *)

(** What [Response.json()] decodes.  [JNull] is Python's [None]; numbers are
    the integers. *)
Inductive json :=
| JNull
| JBool (b : bool)
| JNum (z : Z)
| JStr (s : string)
| JArr (l : list json)
| JObj (d : gmap string json).

(** The values the program stores in its result dictionaries. *)
Inductive pyval :=
| PNone
| PBool (b : bool)
| PStr (s : string)
| PNames (l : list string).

Definition json_truthy (v : json) : bool :=
  match v with
  | JNull => false
  | JBool b => b
  | JNum z => negb (z =? 0)
  | JStr s => negb (String.eqb s EmptyString)
  | JArr l => match l with [] => false | _ => true end
  | JObj d => negb (bool_decide (d = ∅))
  end.

Definition py_truthy (v : pyval) : bool :=
  match v with
  | PNone => false
  | PBool b => b
  | PStr s => negb (String.eqb s EmptyString)
  | PNames l => match l with [] => false | _ => true end
  end.

Definition json_type_name (v : json) : string :=
  match v with
  | JNull => "NoneType"
  | JBool _ => "bool"
  | JNum _ => "int"
  | JStr _ => "str"
  | JArr _ => "list"
  | JObj _ => "dict"
  end.

(** ** Exceptions *)

Inductive exn :=
| OSError (msg : string)
| KeyError (key : string)
| RequestException (msg : string)
| HTTPError (msg : string)
| JSONDecodeError (msg : string)
| AttributeError (msg : string)
| TypeError (msg : string).

(** [str(e)] *)
Definition str_exn (e : exn) : string :=
  match e with
  | KeyError key => "'" +:+ key +:+ "'"
  | OSError msg | RequestException msg | HTTPError msg
  | JSONDecodeError msg | AttributeError msg | TypeError msg => msg
  end.

Inductive outcome (A : Type) :=
| Raised (e : exn)
| Returned (a : A).
Arguments Raised {A} e.
Arguments Returned {A} a.

(** ** HTTP *)

Record response := {
  status_code : Z;
  reason : string;
  url : string;
  json_body : string + json;   (* [inl msg]: the body is not valid JSON *)
  content : list Byte.byte
}.

Inductive http_result :=
| ConnectionFailed (msg : string)
| Responded (r : response).

(** One entry of the multipart payload: file name, handle, content type. *)
Definition part : Type := string * nat * string.

(** The three calls to the service: [POST {API_BASE}/files],
    [GET {API_BASE}/url/{token}] and [GET {API_BASE}/{token}], with the value
    that is formatted into the URL. *)
Inductive request :=
| PostFiles (payload : list part) (watermark : string)
| GetUrl (token : json)
| GetDocument (token : json).

(** [Response.raise_for_status] *)
Definition raise_for_status (r : response) : outcome unit :=
  let sc := status_code r in
  if (400 <=? sc) && (sc <? 500) then
    Raised (HTTPError (pretty sc +:+ " Client Error: " +:+ reason r +:+ " for url: " +:+ url r))
  else if (500 <=? sc) && (sc <? 600) then
    Raised (HTTPError (pretty sc +:+ " Server Error: " +:+ reason r +:+ " for url: " +:+ url r))
  else Returned tt.

(** [Response.json] *)
Definition response_json (r : response) : outcome json :=
  match json_body r with
  | inl msg => Raised (JSONDecodeError msg)
  | inr v => Returned v
  end.

(** [v.get(key)] *)
Definition json_get (v : json) (key : string) : outcome json :=
  match v with
  | JObj d => Returned (default JNull (d !! key))
  | _ => Raised (AttributeError
                   ("'" +:+ json_type_name v +:+ "' object has no attribute 'get'"))
  end.

(** [key in v] *)
Definition json_contains (key : string) (v : json) : outcome bool :=
  match v with
  | JObj d => Returned (bool_decide (is_Some (d !! key)))
  | JArr l =>
      Returned (existsb (fun x => match x with JStr s => String.eqb s key | _ => false end) l)
  | JStr s => Returned (is_substring key s)
  | _ => Raised (TypeError
                   ("argument of type '" +:+ json_type_name v +:+ "' is not iterable"))
  end.

(** [v[key]] for a string key *)
Definition json_getitem (v : json) (key : string) : outcome json :=
  match v with
  | JObj d =>
      match d !! key with
      | Some x => Returned x
      | None => Raised (KeyError key)
      end
  | JArr _ => Raised (TypeError "list indices must be integers or slices, not str")
  | JStr _ => Raised (TypeError "string indices must be integers, not 'str'")
  | _ => Raised (TypeError
                   ("'" +:+ json_type_name v +:+ "' object is not subscriptable"))
  end.

(** ** The world and its environment *)

Inductive event :=
| EvOpen (path : string)
| EvClose (fd : nat)
| EvRequest (req : request)
| EvSleep (secs : Z)
| EvWrite (path : string).

Record World := {
  fs : gmap string (list Byte.byte);   (* file contents by path *)
  handles : gset nat;                  (* open file handles *)
  trace : list event;                  (* calls made so far, oldest first *)
  stdout : list string                 (* console output, oldest first *)
}.

Inductive write_result :=
| WriteOk
| WriteOpenError (msg : string)              (* [open(path, "wb")] raises *)
| WriteError (msg : string) (written : nat). (* [f.write] raises part-way *)

(** The environment answers each call from the history of calls. *)
Record Env := {
  env_open : list event -> string -> option string;
  env_close : list event -> nat -> option string;
  env_http : list event -> request -> http_result;
  env_write : list event -> string -> list Byte.byte -> write_result;
  env_finish : nat -> nat   (* completion time of the n-th submitted future *)
}.

Definition log (e : event) (w : World) : World :=
  {| fs := fs w; handles := handles w; trace := trace w ++ [e]; stdout := stdout w |}.

(** ** Computations *)

Definition M (A : Type) : Type := World -> outcome A * World.

#[global] Instance M_ret : MRet M := fun A a w => (Returned a, w).
#[global] Instance M_bind : MBind M := fun A B f m w =>
  match m w with
  | (Raised e, w1) => (Raised e, w1)
  | (Returned a, w1) => f a w1
  end.

Definition raise {A} (e : exn) : M A := fun w => (Raised e, w).

Definition lift {A} (o : outcome A) : M A := fun w => (o, w).

(** [try: body  except Exception as e: handler(e)] *)
Definition try_except {A} (body : M A) (handler : exn -> M A) : M A := fun w =>
  match body w with
  | (Raised e, w1) => handler e w1
  | (Returned a, w1) => (Returned a, w1)
  end.

(** [click.echo(text)] and [click.echo(text, nl=False)] *)
Definition echo (text : string) : M unit := fun w =>
  (Returned tt,
   {| fs := fs w; handles := handles w; trace := trace w;
      stdout := stdout w ++ [text +:+ nl] |}).

Definition echo_no_nl (text : string) : M unit := fun w =>
  (Returned tt,
   {| fs := fs w; handles := handles w; trace := trace w;
      stdout := stdout w ++ [text] |}).

(** [time.sleep(secs)] *)
Definition sleep (secs : Z) : M unit := fun w => (Returned tt, log (EvSleep secs) w).

(** [open(path, "rb")]: a fresh handle, or [OSError]. *)
Definition open_rb (env : Env) (path : string) : M nat := fun w =>
  match env_open env (trace w) path with
  | Some msg => (Raised (OSError msg), log (EvOpen path) w)
  | None =>
      let fd := fresh (handles w) in
      (Returned fd,
       {| fs := fs w; handles := {[fd]} ∪ handles w;
          trace := trace w ++ [EvOpen path]; stdout := stdout w |})
  end.

(** [fh.close()]: the handle is released even when the call reports an
    error. *)
Definition close (env : Env) (fd : nat) : M unit := fun w =>
  let w1 := {| fs := fs w; handles := handles w ∖ {[fd]};
               trace := trace w ++ [EvClose fd]; stdout := stdout w |} in
  match env_close env (trace w) fd with
  | Some msg => (Raised (OSError msg), w1)
  | None => (Returned tt, w1)
  end.

(** [requests.post] / [requests.get] *)
Definition http (env : Env) (req : request) : M response := fun w =>
  match env_http env (trace w) req with
  | ConnectionFailed msg => (Raised (RequestException msg), log (EvRequest req) w)
  | Responded r => (Returned r, log (EvRequest req) w)
  end.

(** [with open(path, "wb") as f: f.write(data)] *)
Definition write_file (env : Env) (path : string) (data : list Byte.byte) : M unit := fun w =>
  let put (d : list Byte.byte) :=
    {| fs := <[path := d]> (fs w); handles := handles w;
       trace := trace w ++ [EvWrite path]; stdout := stdout w |} in
  match env_write env (trace w) path data with
  | WriteOk => (Returned tt, put data)
  | WriteOpenError msg => (Raised (OSError msg), log (EvWrite path) w)
  | WriteError msg written => (Raised (OSError msg), put (take written data))
  end.

(** Runs [m] and hands its outcome to the caller: the body of a [try], or
    a worker whose exception is kept in its future. *)
Definition catch {A} (m : M A) : M (outcome A) := fun w =>
  let '(o, w1) := m w in (Returned o, w1).

(** ** The remote service client *)

(** The loop of [upload_files] over [files]; the lists [payload] and
    [file_handles] are returned with the outcome, as the [finally] block
    reads [file_handles] also after an exception. *)
Fixpoint upload_loop (env : Env) (files : list string)
    (payload : list part) (file_handles : list nat) (w : World)
    : outcome unit * (list part * list nat) * World :=
  match files with
  | [] => (Returned tt, (payload, file_handles), w)
  | file :: rest =>
      let ext := get_file_ext file in
      match open_rb env file w with
      | (Raised e, w1) => (Raised e, (payload, file_handles), w1)
      | (Returned fh, w1) =>
          let file_handles := file_handles ++ [fh] in
          match CONTENT_TYPES !! ext with
          | None => (Raised (KeyError ext), (payload, file_handles), w1)
          | Some ctype =>
              upload_loop env rest (payload ++ [(path_name file, fh, ctype)]) file_handles w1
          end
      end
  end.

(** The [finally] block: every handle is closed, errors are ignored. *)
Fixpoint close_all (env : Env) (file_handles : list nat) : M unit :=
  match file_handles with
  | [] => mret tt
  | fh :: rest => catch (close env fh);; close_all env rest
  end.

Definition upload_files (env : Env) (files : list string) (watermark : string) : M json :=
  fun w =>
    let '(o, (payload, file_handles), w1) := upload_loop env files [] [] w in
    let '(res, w2) :=
      match o with
      | Raised e => (Raised e, w1)
      | Returned _ =>
          (r ← http env (PostFiles payload watermark);
           lift (raise_for_status r);;
           data ← lift (response_json r);
           lift (json_get data "token")) w1
      end in
    let '(_, w3) := close_all env file_handles w2 in
    (res, w3).

(** One turn of the polling loop up to the [sleep]: [Some v] when the
    function returns [v] from inside the [try]. *)
Definition poll_attempt (env : Env) (token : json) : M (option json) :=
  o ← catch (r ← http env (GetUrl token);
             lift (raise_for_status r);;
             data ← lift (response_json r);
             has_url ← lift (json_contains "url" data);
             if has_url : bool
             then v ← lift (json_getitem data "url"); mret (Some v)
             else mret None);
  match o with
  | Raised _ => mret None
  | Returned x => mret x
  end.

Fixpoint poll_loop (env : Env) (token : json) (attempts : nat) : M json :=
  match attempts with
  | O => mret JNull
  | S k =>
      x ← poll_attempt env token;
      match x with
      | Some v => mret v
      | None => sleep 3;; poll_loop env token k
      end
  end.

Definition poll_until_ready (env : Env) (token : json) (timeout_sec : Z) : M json :=
  poll_loop env token (Z.to_nat (timeout_sec / 3)).

Definition download_document (env : Env) (token : json) (out_path : string) : M bool :=
  o ← catch (r ← http env (GetDocument token);
             lift (raise_for_status r);;
             mret r);
  match o with
  | Raised e => echo ("    ❌ Error downloading: " +:+ str_exn e);; mret false
  | Returned r => write_file env out_path (content r);; mret true
  end.

(** ** One job *)

Definition process_files (env : Env) (files : list string) (watermark : string)
    (output_file_path : string) : M (gmap string pyval) :=
  let result : gmap string pyval :=
    {[ "files" := PNames (path_name <$> files);
       "success" := PBool false;
       "msg" := PStr EmptyString ]} in
  o ← catch (upload_files env files watermark);
  match o with
  | Raised e => mret (<["msg" := PStr ("upload failed: " +:+ str_exn e)]> result)
  | Returned token =>
      url ← poll_until_ready env token 60;
      if negb (json_truthy url) then mret (<["msg" := PStr "timeout"]> result)
      else
        ok ← download_document env token output_file_path;
        if negb ok then mret (<["msg" := PStr "download failed"]> result)
        else mret (<["msg" := PStr output_file_path]> (<["success" := PBool true]> result))
  end.

(** ** Scheduling and reporting *)

(** [executor.submit(process_files, [file], watermark, output_dir / file.name)]
    for every file.  Jobs share nothing but the file system and the console,
    so the model runs them one after the other; the order in which they are
    reported complete is the environment's. *)
Fixpoint submit_all (env : Env) (files : list string) (watermark output_dir : string)
    : M (list (outcome (gmap string pyval))) :=
  match files with
  | [] => mret []
  | file :: rest =>
      fut ← catch (process_files env [file] watermark (path_join output_dir (path_name file)));
      futs ← submit_all env rest watermark output_dir;
      mret (fut :: futs)
  end.

Fixpoint insert_by {A} (key : nat -> nat) (x : nat * A) (l : list (nat * A)) : list (nat * A) :=
  match l with
  | [] => [x]
  | y :: rest =>
      if (key x.1 <=? key y.1)%nat then x :: y :: rest else y :: insert_by key x rest
  end.

(** [as_completed(futures)]: the futures by completion time. *)
Definition as_completed {A} (env : Env) (futures : list A) : list A :=
  snd <$> foldr (insert_by (env_finish env)) [] (imap pair futures).

(** The dictionary recorded for a worker that raised. *)
Definition fallback (e : exn) : gmap string pyval :=
  {[ "file" := PNone;
     "success" := PBool false;
     "msg" := PStr ("error: " +:+ str_exn e) ]}.

(** The loop over [as_completed(futures)]. *)
Fixpoint collect (total : nat) (futures : list (outcome (gmap string pyval)))
    (results : list (gmap string pyval)) (processed : nat) : M (list (gmap string pyval)) :=
  match futures with
  | [] => mret results
  | future :: rest =>
      let results :=
        match future with
        | Returned r => results ++ [r]
        | Raised e => results ++ [fallback e]
        end in
      let processed := S processed in
      echo_no_nl (cr +:+ "Processing files: " +:+ pretty processed +:+ "/" +:+ pretty total);;
      collect total rest results processed
  end.

(** The two dispatch modes: the value of [results] when reporting starts. *)
Definition run_jobs (env : Env) (files : list string) (watermark output_dir : string)
    (aggregate : bool) (aggregate_output : string) : M (list (gmap string pyval)) :=
  if aggregate then
    echo ("➡️ Aggregated mode: uploading " +:+ pretty (length files) +:+ " files…");;
    let out_path := path_join output_dir aggregate_output in
    r ← process_files env files watermark out_path;
    mret [r]
  else
    echo ("➡️ Processing " +:+ pretty (length files) +:+ " files in parallel…");;
    futures ← submit_all env files watermark output_dir;
    let total := length futures in
    echo_no_nl ("Processing files: 0/" +:+ pretty total);;
    results ← collect total (as_completed env futures) [] 0%nat;
    echo EmptyString;;
    mret results.

(** [str(v)]; the quoting of the names of a list is exact for names without
    quotes, backslashes or control characters. *)
Definition py_str (v : pyval) : string :=
  match v with
  | PNone => "None"
  | PBool true => "True"
  | PBool false => "False"
  | PStr s => s
  | PNames l => "[" +:+ join ", " ((fun s => "'" +:+ s +:+ "'") <$> l) +:+ "]"
  end.

Fixpoint chars (s : string) : list string :=
  match s with
  | EmptyString => []
  | String a rest => String a EmptyString :: chars rest
  end.

(** [sep.join(v)] *)
Definition py_join (sep : string) (v : pyval) : outcome string :=
  match v with
  | PNames l => Returned (join sep l)
  | PStr s => Returned (join sep (chars s))
  | PNone => Raised (TypeError "can only join an iterable")
  | PBool _ => Raised (TypeError "can only join an iterable")
  end.

(** [r[key]] *)
Definition dict_getitem (r : gmap string pyval) (key : string) : outcome pyval :=
  match r !! key with
  | Some v => Returned v
  | None => Raised (KeyError key)
  end.

Definition bind_outcome {A B} (o : outcome A) (f : A -> outcome B) : outcome B :=
  match o with
  | Raised e => Raised e
  | Returned a => f a
  end.

(** [",".join(r["files"]) if r.get("files") else "???"] *)
Definition file_names (r : gmap string pyval) : outcome string :=
  if py_truthy (default PNone (r !! "files"))
  then bind_outcome (dict_getitem r "files") (py_join ",")
  else Returned "???".

(** The line printed for one result. *)
Definition report_line (r : gmap string pyval) : outcome string :=
  bind_outcome (file_names r) (fun names =>
  bind_outcome (dict_getitem r "success") (fun success =>
  let mark := if py_truthy success then "  ✅ " else "  ❌ " in
  bind_outcome (dict_getitem r "msg") (fun msg =>
  Returned (mark +:+ names +:+ ": " +:+ py_str msg)))).

Fixpoint report (results : list (gmap string pyval)) : M unit :=
  match results with
  | [] => mret tt
  | r :: rest => line ← lift (report_line r); echo line;; report rest
  end.

(** [main] once the folder has been scanned: [files] is what
    [collect_supported_files] returned. *)
Definition main (env : Env) (files : list string) (watermark output_dir : string)
    (aggregate : bool) (aggregate_output : string) : M unit :=
  match files with
  | [] => echo "No supported files found."
  | _ =>
      results ← run_jobs env files watermark output_dir aggregate aggregate_output;
      echo (nl +:+ "📄 Results:");;
      report results;;
      echo (nl +:+ "🎉 Done!")
  end.

(** ** Scanning the folder *)

Definition SUPPORTED_EXT : gset string :=
  {[ "jpg"; "jpeg"; "png"; "heic"; "pdf" ]}.

(** [sorted(paths)]: paths of one folder compare as their textual forms do.
    The sort is stable. *)
Fixpoint insert_path (x : string * bool) (l : list (string * bool)) : list (string * bool) :=
  match l with
  | [] => [x]
  | y :: rest =>
      if String.leb x.1 y.1 then x :: y :: rest else y :: insert_path x rest
  end.

Definition sorted_paths (l : list (string * bool)) : list (string * bool) :=
  foldr insert_path [] l.

(** The loop of [collect_supported_files] over the sorted entries, each
    with the answer of its [is_file()]. *)
Fixpoint collect_loop (entries : list (string * bool)) (files : list string)
    : M (list string) :=
  match entries with
  | [] => mret files
  | (f, is_file) :: rest =>
      if negb is_file then collect_loop rest files
      else
        let ext := get_file_ext f in
        if bool_decide (ext ∈ SUPPORTED_EXT) then
          echo ("   • " +:+ path_name f);;
          collect_loop rest (files ++ [f])
        else
          echo ("⚠️ Skipping unsupported file: " +:+ path_name f);;
          collect_loop rest files
  end.

(** [listing] is what [folder.iterdir()] gives: an error, or the names in
    the folder in directory order, each with what [is_file()] answers. *)
Definition collect_supported_files (folder : string)
    (listing : string + list (string * bool)) : M (list string) :=
  echo "➡️ Supported files:";;
  match listing with
  | inl msg => raise (OSError msg)
  | inr names =>
      collect_loop
        (sorted_paths ((λ entry, (path_join folder entry.1, entry.2)) <$> names)) []
  end.

(** [main] from its first line.  Directories are not part of the world:
    [mkdir_error] is the error of [output_dir.mkdir(exist_ok=True)], if any,
    and [listing] the content of the folder. *)
Definition main_entry (env : Env) (folder watermark : string) (output_dir : option string)
    (aggregate : bool) (aggregate_output : string)
    (mkdir_error : option string) (listing : string + list (string * bool)) : M unit :=
  let output_dir :=
    match output_dir with
    | None => path_join folder "filigrane"
    | Some dir => dir
    end in
  match mkdir_error with
  | Some msg => raise (OSError msg)
  | None =>
      echo ("Scanning folder: " +:+ folder);;
      files ← collect_supported_files folder listing;
      main env files watermark output_dir aggregate aggregate_output
  end.

(** * Vocabulary of the properties *)

(** [extend evs w]: the world [w] after the calls [evs], files, handles and
    console untouched. *)
Definition extend (evs : list event) (w : World) : World :=
  {| fs := fs w; handles := handles w; trace := trace w ++ evs; stdout := stdout w |}.

Definition is_poll (e : event) : bool :=
  match e with EvRequest (GetUrl _) => true | _ => false end.

Definition is_fetch (e : event) : bool :=
  match e with EvRequest (GetDocument _) => true | _ => false end.

Definition is_write (e : event) : bool :=
  match e with EvWrite _ => true | _ => false end.

(** Calls of the upload step: opening and closing files, and the POST. *)
Definition is_upload_call (e : event) : bool :=
  match e with
  | EvOpen _ | EvClose _ | EvRequest (PostFiles _ _) => true
  | _ => false
  end.

(** What one status response makes the loop return: the value under
    ["url"], provided the call succeeded, the status is not an error and the
    body is a JSON object with that key. *)
Definition ready_url (res : http_result) : option json :=
  match res with
  | ConnectionFailed _ => None
  | Responded r =>
      match raise_for_status r with
      | Raised _ => None
      | Returned _ =>
          match json_body r with
          | inr (JObj d) => d !! "url"
          | _ => None
          end
      end
  end.

(** One turn of the loop that is not ready: the request, then the pause. *)
Definition poll_round (token : json) : list event :=
  [EvRequest (GetUrl token); EvSleep 3].

(** The response to attempt number [k] (from 0) of a loop started in [w],
    when the earlier attempts were not ready. *)
Definition answer (env : Env) (w : World) (token : json) (k : nat) : http_result :=
  env_http env (trace w ++ concat (replicate k (poll_round token))) (GetUrl token).

(** The exception of the [try] block of [download_document], if any: a
    transport error, or a status that [raise_for_status] rejects. *)
Definition fetch_failure (res : http_result) : option exn :=
  match res with
  | ConnectionFailed msg => Some (RequestException msg)
  | Responded r =>
      match raise_for_status r with
      | Raised e => Some e
      | Returned _ => None
      end
  end.

(** A fetch fails on a transport error or on a 4xx or 5xx status. *)
Definition fetch_fails (res : http_result) : Prop :=
  (∃ msg, res = ConnectionFailed msg) ∨
  (∃ r, res = Responded r ∧ 400 <= status_code r < 600).

(** The dictionary a job starts from. *)
Definition new_result (files : list string) : gmap string pyval :=
  {[ "files" := PNames (path_name <$> files);
     "success" := PBool false;
     "msg" := PStr EmptyString ]}.

(** What the scheduler records for a future. *)
Definition recorded (future : outcome (gmap string pyval)) : gmap string pyval :=
  match future with
  | Returned r => r
  | Raised e => fallback e
  end.

(** The futures of a per-file run started in [w]. *)
Definition futures_of (env : Env) (files : list string) (watermark output_dir : string)
    (w : World) : list (outcome (gmap string pyval)) :=
  match (echo ("➡️ Processing " +:+ pretty (length files) +:+ " files in parallel…");;
         submit_all env files watermark output_dir) w with
  | (Returned futures, _) => futures
  | (Raised _, _) => []
  end.

Definition reportable (r : gmap string pyval) : Prop :=
  ∃ line, report_line r = Returned line.

(** ** Example environments *)

Definition world0 : World := {| fs := ∅; handles := ∅; trace := []; stdout := [] |}.

Definition reply (status : Z) (why : string) (body : string + json)
    (bytes : list Byte.byte) : http_result :=
  Responded {| status_code := status; reason := why;
               url := "https://api.filigrane.beta.gouv.fr/api/document";
               json_body := body; content := bytes |}.

Definition service (post : http_result) (poll : list event → http_result)
    (fetch : http_result) (written : write_result) : Env :=
  {| env_open := λ _ _, None;
     env_close := λ _ _, None;
     env_http := λ history req,
       match req with
       | PostFiles _ _ => post
       | GetUrl _ => poll history
       | GetDocument _ => fetch
       end;
     env_write := λ _ _ _, written;
     env_finish := λ n, n |}.

Definition token_reply : http_result :=
  reply 200 "OK" (inr (JObj {[ "token" := JStr "t1" ]})) [].
Definition ready_reply : http_result :=
  reply 200 "OK" (inr (JObj {[ "url" := JStr "https://files/t1" ]})) [].
Definition pending_reply : http_result := reply 200 "OK" (inr (JObj ∅)) [].
Definition document_reply : http_result :=
  reply 200 "OK" (inl "Expecting value") [Byte.x25; Byte.x50; Byte.x44; Byte.x46].

Definition env_ok : Env := service token_reply (λ _, ready_reply) document_reply WriteOk.
Definition env_pending : Env := service token_reply (λ _, pending_reply) document_reply WriteOk.
Definition env_upload_500 : Env :=
  service (reply 500 "Internal Server Error" (inl "Expecting value") [])
          (λ _, ready_reply) document_reply WriteOk.
Definition env_no_token : Env :=
  service (reply 200 "OK" (inr (JObj ∅)) [])
          (λ _, reply 404 "Not Found" (inl "Expecting value") []) document_reply WriteOk.
Definition env_fetch_404 : Env :=
  service token_reply (λ _, ready_reply)
          (reply 404 "Not Found" (inl "Expecting value") []) WriteOk.
Definition env_empty_url : Env :=
  service token_reply
          (λ history,
             if (length (filter (λ e, is_poll e = true) history) <? 2)%nat
             then pending_reply
             else reply 200 "OK" (inr (JObj {[ "url" := JStr EmptyString ]})) [])
          document_reply WriteOk.
Definition env_write_fails : Env :=
  service token_reply (λ _, ready_reply) document_reply (WriteOpenError "Permission denied").

(** ** Vocabulary of the further properties *)

(** Whether the character [c] occurs in [s]. *)
Fixpoint occurs (c : ascii) (s : string) : bool :=
  match s with
  | EmptyString => false
  | String a rest => Ascii.eqb a c || occurs c rest
  end.

Definition is_request (e : event) : bool :=
  match e with EvRequest _ => true | _ => false end.

Definition is_open (e : event) : bool :=
  match e with EvOpen _ => true | _ => false end.

Definition is_close (e : event) : bool :=
  match e with EvClose _ => true | _ => false end.

(** The entries [collect_supported_files] keeps: regular files with a
    supported extension. *)
Definition kept (entry : string * bool) : bool :=
  entry.2 && bool_decide (get_file_ext entry.1 ∈ SUPPORTED_EXT).


(** The paths of a listing, sorted. *)
Definition entries_of (folder : string) (names : list (string * bool)) : list (string * bool) :=
  sorted_paths ((λ entry, (path_join folder entry.1, entry.2)) <$> names).

(** A folder with two documents, a text file, a hidden file and a
    sub-directory, in directory order. *)
Definition listing0 : list (string * bool) :=
  [ ("scan.PNG", true); ("notes.txt", true); ("filigrane", false);
    (".pdf", true); ("bill.pdf", true) ].

(** A service that is ready at the third status request. *)
Definition env_ready_third : Env :=
  service token_reply
          (λ history,
             if (length (filter (λ e, is_poll e = true) history) <? 2)%nat
             then pending_reply
             else ready_reply)
          document_reply WriteOk.

(** A service whose status response is the JSON list [["url"]]. *)
Definition env_list_body : Env :=
  service token_reply (λ _, reply 200 "OK" (inr (JArr [JStr "url"])) [])
          document_reply WriteOk.



(** The dictionary of a job on one file that succeeded. *)
Definition success_result (output_dir file : string) : gmap string pyval :=
  <["msg" := PStr (path_join output_dir (path_name file))]>
    (<["success" := PBool true]> (new_result [file])).

(** A service and a disk that always succeed: every file opens, every POST
    answers a token, every status request a locator, every fetch a body, and
    every write completes. *)
Definition healthy (env : Env) : Prop :=
  (∀ history f, env_open env history f = None) ∧
  (∀ history payload watermark, ∃ r d tok,
     env_http env history (PostFiles payload watermark) = Responded r ∧
     raise_for_status r = Returned tt ∧ json_body r = inr (JObj d) ∧
     d !! "token" = Some tok) ∧
  (∀ history token, ∃ v,
     ready_url (env_http env history (GetUrl token)) = Some v ∧ json_truthy v = true) ∧
  (∀ history token, ∃ r,
     env_http env history (GetDocument token) = Responded r ∧
     raise_for_status r = Returned tt) ∧
  (∀ history path data, env_write env history path data = WriteOk).

(** * Properties *)

(** ** Worlds that differ by calls only *)

Lemma extend_extend evs1 evs2 w : extend evs2 (extend evs1 w) = extend (evs1 ++ evs2) w.
Proof. unfold extend; simpl. by rewrite app_assoc. Qed.

Lemma extend_nil w : extend [] w = w.
Proof. destruct w; unfold extend; simpl. by rewrite app_nil_r. Qed.

Lemma log_extend e w : log e w = extend [e] w.
Proof. reflexivity. Qed.

Ltac munfold :=
  unfold mbind, M_bind, mret, M_ret, catch, lift, raise, try_except in *.

(** ** Polling *)

Lemma poll_attempt_eq env token w :
  poll_attempt env token w =
  (Returned (ready_url (env_http env (trace w) (GetUrl token))),
   log (EvRequest (GetUrl token)) w).
Proof.
  unfold poll_attempt, http, ready_url, response_json. munfold.
  destruct (env_http env (trace w) (GetUrl token)) as [msg|r]; [done|].
  destruct (raise_for_status r) as [e|[]]; [done|].
  destruct (json_body r) as [msg|data]; [done|].
  destruct data as [| b | z | s | l | d]; simpl; try done.
  - by destruct (is_substring _ _).
  - by destruct (existsb _ _).
  - by destruct (d !! "url").
Qed.

Lemma answer_shift env w token k :
  answer env (extend (poll_round token) w) token k = answer env w token (S k).
Proof. unfold answer; simpl. by rewrite <- app_assoc. Qed.

Lemma poll_loop_step env token k w :
  poll_loop env token (S k) w =
  match ready_url (answer env w token 0) with
  | Some v => (Returned v, extend [EvRequest (GetUrl token)] w)
  | None => poll_loop env token k (extend (poll_round token) w)
  end.
Proof.
  simpl. unfold mbind at 1, M_bind at 1. rewrite poll_attempt_eq.
  unfold answer; simpl. rewrite app_nil_r.
  destruct (ready_url _); [done|].
  unfold sleep. munfold. by rewrite !log_extend, extend_extend.
Qed.

Lemma poll_loop_not_ready env token n : ∀ w,
  (∀ k, (k < n)%nat → ready_url (answer env w token k) = None) →
  poll_loop env token n w = (Returned JNull, extend (concat (replicate n (poll_round token))) w).
Proof.
  induction n as [|n IH]; intros w Hnr.
  - simpl. by rewrite extend_nil.
  - rewrite poll_loop_step, (Hnr 0%nat) by lia.
    rewrite IH.
    + by rewrite extend_extend.
    + intros k Hk. rewrite answer_shift. apply Hnr. lia.
Qed.

Lemma poll_loop_ready_at env token n : ∀ k v w,
  (k < n)%nat →
  (∀ j, (j < k)%nat → ready_url (answer env w token j) = None) →
  ready_url (answer env w token k) = Some v →
  poll_loop env token n w =
  (Returned v, extend (concat (replicate k (poll_round token)) ++ [EvRequest (GetUrl token)]) w).
Proof.
  induction n as [|n IH]; intros k v w Hk Hnr Hr; [lia|].
  rewrite poll_loop_step. destruct k as [|k].
  - by rewrite Hr.
  - rewrite (Hnr 0%nat) by lia.
    rewrite (IH k v).
    + by rewrite extend_extend.
    + lia.
    + intros j Hj. rewrite answer_shift. apply Hnr. lia.
    + by rewrite answer_shift.
Qed.

(** The loop always returns, and only polls and sleeps. *)
Lemma poll_loop_frame env token n : ∀ w,
  ∃ v evs, poll_loop env token n w = (Returned v, extend evs w) ∧
           Forall (λ e, is_fetch e = false ∧ is_write e = false ∧ is_upload_call e = false) evs.
Proof.
  induction n as [|n IH]; intros w.
  - exists JNull, []. simpl. by rewrite extend_nil.
  - rewrite poll_loop_step. destruct (ready_url _) as [v|].
    + exists v, [EvRequest (GetUrl token)]. split; [done|]. by repeat constructor.
    + destruct (IH (extend (poll_round token) w)) as (v & evs & -> & Hevs).
      exists v, (poll_round token ++ evs). rewrite extend_extend. split; [done|].
      apply Forall_app; split; [by repeat constructor|done].
Qed.

(** ** Uploading *)

Lemma upload_loop_spec env files : ∀ payload fhs w o payload' fhs' w1,
  upload_loop env files payload fhs w = (o, (payload', fhs'), w1) →
  ∃ new evs,
    fhs' = fhs ++ new ∧ fs w1 = fs w ∧ stdout w1 = stdout w ∧
    handles w1 = list_to_set new ∪ handles w ∧
    (∀ fd, fd ∈ new → fd ∉ handles w) ∧
    trace w1 = trace w ++ evs ∧ Forall (λ e, is_upload_call e = true) evs.
Proof.
  induction files as [|file rest IH]; intros payload fhs w o payload' fhs' w1 Hrun; simpl in Hrun.
  - inversion Hrun; subst. exists [], []. rewrite !app_nil_r. set_solver.
  - unfold open_rb in Hrun.
    destruct (env_open env (trace w) file) as [msg|].
    + inversion Hrun; subst. exists [], [EvOpen file]. rewrite app_nil_r. simpl.
      repeat split; try done; [set_solver..|by repeat constructor].
    + set (fd := fresh (handles w)) in *.
      assert (fd ∉ handles w) as Hfresh by apply is_fresh.
      destruct (CONTENT_TYPES !! get_file_ext file) as [ctype|].
      * apply IH in Hrun as (new & evs & -> & Hfs & Hout & Hh & Hnew & Htr & Hevs).
        simpl in *. exists (fd :: new), (EvOpen file :: evs).
        rewrite <- !app_assoc in *. simpl.
        repeat split; try done; [set_solver..|by constructor].
      * inversion Hrun; subst. exists [fd], [EvOpen file]. simpl.
        repeat split; try done; [set_solver..|by repeat constructor].
Qed.

Lemma close_all_spec env fhs : ∀ w,
  ∃ w1 evs,
    close_all env fhs w = (Returned tt, w1) ∧ fs w1 = fs w ∧ stdout w1 = stdout w ∧
    handles w1 = handles w ∖ list_to_set fhs ∧
    trace w1 = trace w ++ evs ∧ Forall (λ e, is_upload_call e = true) evs.
Proof.
  induction fhs as [|fh rest IH]; intros w; simpl.
  - exists w, []. rewrite app_nil_r. repeat split; try done. set_solver.
  - unfold close. munfold.
    set (w1 := {| fs := fs w; handles := handles w ∖ {[fh]};
                  trace := trace w ++ [EvClose fh]; stdout := stdout w |}).
    destruct (IH w1) as (w2 & evs & Hrun & Hfs & Hout & Hh & Htr & Hevs).
    exists w2, (EvClose fh :: evs).
    destruct (env_close env (trace w) fh); rewrite Hrun; subst w1; simpl in *;
      rewrite <- app_assoc in Htr;
      (repeat split; try done; [set_solver|by constructor]).
Qed.

(** [upload_files] touches neither the files nor the console, leaves the
    set of open handles as it found it, and makes upload calls only. *)
Lemma upload_files_spec env files watermark w o w' :
  upload_files env files watermark w = (o, w') →
  fs w' = fs w ∧ stdout w' = stdout w ∧ handles w' = handles w ∧
  ∃ evs, trace w' = trace w ++ evs ∧ Forall (λ e, is_upload_call e = true) evs.
Proof.
  unfold upload_files. intros Hrun.
  destruct (upload_loop env files [] [] w) as [[o1 [payload fhs]] w1] eqn:Hloop.
  apply upload_loop_spec in Hloop as (new & evs1 & -> & Hfs1 & Hout1 & Hh1 & Hnew & Htr1 & Hevs1).
  simpl in Hrun.
  set (post := match o1 with Raised e => _ | Returned _ => _ end) in Hrun.
  assert (∃ evs2, fs post.2 = fs w1 ∧ stdout post.2 = stdout w1 ∧
                  handles post.2 = handles w1 ∧ trace post.2 = trace w1 ++ evs2 ∧
                  Forall (λ e, is_upload_call e = true) evs2) as (evs2 & Hfs2 & Hout2 & Hh2 & Htr2 & Hevs2).
  { subst post. destruct o1 as [e|[]].
    - exists []. by rewrite app_nil_r.
    - exists [EvRequest (PostFiles payload watermark)].
      unfold http, response_json. munfold.
      destruct (env_http env (trace w1) _) as [msg|r]; simpl; [by repeat constructor|].
      destruct (raise_for_status r) as [e|[]]; simpl; [by repeat constructor|].
      destruct (json_body r) as [msg|data]; simpl; by repeat constructor. }
  destruct post as [res w2]. simpl in *.
  destruct (close_all_spec env new w2) as (w3 & evs3 & Hclose & Hfs3 & Hout3 & Hh3 & Htr3 & Hevs3).
  rewrite Hclose in Hrun. inversion Hrun; subst.
  repeat split; [congruence|congruence|set_solver|].
  exists (evs1 ++ evs2 ++ evs3). split.
  - rewrite Htr3, Htr2, Htr1. by rewrite !app_assoc.
  - by rewrite !Forall_app.
Qed.

(** ** Downloading *)

Lemma raise_for_status_error r :
  400 <= status_code r < 600 → ∃ e, raise_for_status r = Raised e.
Proof.
  intros [Hlo Hhi]. unfold raise_for_status.
  destruct (decide (status_code r < 500)) as [Hlt|Hge].
  - rewrite (proj2 (Z.leb_le _ _) Hlo), (proj2 (Z.ltb_lt _ _) Hlt). simpl. by eexists.
  - rewrite (proj2 (Z.ltb_ge _ _)) by lia. rewrite andb_false_r.
    rewrite (proj2 (Z.leb_le _ _)) by lia. rewrite (proj2 (Z.ltb_lt _ _) Hhi). simpl. by eexists.
Qed.

Lemma raise_for_status_ok r :
  raise_for_status r = Returned tt → ¬ (400 <= status_code r < 600).
Proof.
  intros Hok Hst. apply raise_for_status_error in Hst as [e He]. congruence.
Qed.

Lemma fetch_fails_failure res : fetch_fails res → ∃ e, fetch_failure res = Some e.
Proof.
  intros [[msg ->]|(r & -> & Hst)]; simpl; [by eexists|].
  apply raise_for_status_error in Hst as [e ->]. by eexists.
Qed.

Lemma download_document_failed env token out_path w e :
  fetch_failure (env_http env (trace w) (GetDocument token)) = Some e →
  download_document env token out_path w =
  (Returned false,
   {| fs := fs w; handles := handles w;
      trace := trace w ++ [EvRequest (GetDocument token)];
      stdout := stdout w ++ [("    ❌ Error downloading: " +:+ str_exn e) +:+ nl] |}).
Proof.
  unfold download_document, fetch_failure, http, echo. munfold. intros Hfail.
  destruct (env_http env (trace w) (GetDocument token)) as [msg|r]; simpl.
  - by inversion Hfail.
  - destruct (raise_for_status r) as [e'|[]]; simpl; [by inversion Hfail|done].
Qed.

Lemma download_document_fetched env token out_path w r :
  env_http env (trace w) (GetDocument token) = Responded r →
  raise_for_status r = Returned tt →
  download_document env token out_path w =
  match write_file env out_path (content r) (log (EvRequest (GetDocument token)) w) with
  | (Raised e, w1) => (Raised e, w1)
  | (Returned _, w1) => (Returned true, w1)
  end.
Proof.
  unfold download_document, http. munfold. intros -> Hok. simpl. rewrite Hok. simpl.
  by destruct (write_file _ _ _ _) as [[e|[]] w1].
Qed.

(** [download_document] returns [True] only after the fetch and the write
    both succeeded. *)
Lemma download_document_true env token out_path w w' :
  download_document env token out_path w = (Returned true, w') →
  ∃ r, env_http env (trace w) (GetDocument token) = Responded r ∧
       raise_for_status r = Returned tt ∧
       env_write env (trace w ++ [EvRequest (GetDocument token)]) out_path (content r) = WriteOk ∧
       w' = {| fs := <[out_path := content r]> (fs w); handles := handles w;
               trace := trace w ++ [EvRequest (GetDocument token); EvWrite out_path];
               stdout := stdout w |}.
Proof.
  intros Hrun.
  destruct (fetch_failure (env_http env (trace w) (GetDocument token))) as [e|] eqn:Hfail.
  - rewrite (download_document_failed _ _ _ _ e Hfail) in Hrun. by inversion Hrun.
  - unfold fetch_failure in Hfail.
    destruct (env_http env (trace w) (GetDocument token)) as [msg|r] eqn:Hres; [done|].
    destruct (raise_for_status r) as [e|[]] eqn:Hok; [done|].
    rewrite (download_document_fetched _ _ _ _ r Hres Hok) in Hrun.
    exists r. unfold write_file in Hrun. simpl in Hrun.
    destruct (env_write env _ out_path (content r)) as [|msg|msg n]; inversion Hrun; subst.
    repeat split; try done. by rewrite <- app_assoc.
Qed.

(** ** One job *)

Lemma new_result_msg files msg :
  <["msg" := PStr msg]> (new_result files) !! "msg" = Some (PStr msg) ∧
  <["msg" := PStr msg]> (new_result files) !! "success" = Some (PBool false) ∧
  <["msg" := PStr msg]> (new_result files) !! "files" = Some (PNames (path_name <$> files)).
Proof. unfold new_result. by simplify_map_eq. Qed.

Lemma process_files_upload_raised env files watermark out_path w e w1 :
  upload_files env files watermark w = (Raised e, w1) →
  process_files env files watermark out_path w =
  (Returned (<["msg" := PStr ("upload failed: " +:+ str_exn e)]> (new_result files)), w1).
Proof. intros Hup. unfold process_files. munfold. by rewrite Hup. Qed.

Lemma process_files_uploaded env files watermark out_path w token w1 url w2 :
  upload_files env files watermark w = (Returned token, w1) →
  poll_until_ready env token 60 w1 = (Returned url, w2) →
  process_files env files watermark out_path w =
  if json_truthy url then
    match download_document env token out_path w2 with
    | (Raised e, w3) => (Raised e, w3)
    | (Returned true, w3) =>
        (Returned (<["msg" := PStr out_path]> (<["success" := PBool true]> (new_result files))), w3)
    | (Returned false, w3) =>
        (Returned (<["msg" := PStr "download failed"]> (new_result files)), w3)
    end
  else (Returned (<["msg" := PStr "timeout"]> (new_result files)), w2).
Proof.
  intros Hup Hpoll. unfold process_files. munfold. rewrite Hup, Hpoll.
  destruct (json_truthy url); simpl; [|done].
  by destruct (download_document _ _ _ _) as [[e|[]] w3].
Qed.

Lemma upload_call_kind e :
  is_upload_call e = true → is_poll e = false ∧ is_fetch e = false ∧ is_write e = false.
Proof. by destruct e as [| |[]| |]. Qed.

Lemma poll_until_ready_not_ready env token timeout_sec w :
  (∀ k, (k < Z.to_nat (timeout_sec / 3))%nat → ready_url (answer env w token k) = None) →
  poll_until_ready env token timeout_sec w =
  (Returned JNull,
   extend (concat (replicate (Z.to_nat (timeout_sec / 3)) (poll_round token))) w).
Proof. apply poll_loop_not_ready. Qed.

Lemma poll_rounds_no_fetch token n :
  Forall (λ e, is_fetch e = false) (concat (replicate n (poll_round token))).
Proof. induction n; simpl; by repeat constructor. Qed.

Lemma poll_rounds_attempts token n :
  length (filter (λ e, is_poll e = true) (concat (replicate n (poll_round token)))) = n.
Proof.
  induction n as [|n IH]; [done|]. simpl.
  rewrite filter_cons_False by done. by rewrite IH.
Qed.

(** The four dictionaries a job can return. *)
Lemma process_files_shapes env files watermark out_path w r w' :
  process_files env files watermark out_path w = (Returned r, w') →
  (∃ msg, r = <["msg" := PStr msg]> (new_result files)) ∨
  r = <["msg" := PStr out_path]> (<["success" := PBool true]> (new_result files)).
Proof.
  intros Hrun.
  destruct (upload_files env files watermark w) as [[e|token] w1] eqn:Hup.
  - rewrite (process_files_upload_raised _ _ _ _ _ _ _ Hup) in Hrun.
    inversion Hrun. left. by eexists.
  - destruct (poll_loop_frame env token (Z.to_nat (60 / 3)) w1) as (url & evs & Hpoll & _).
    rewrite (process_files_uploaded _ _ _ _ _ _ _ _ _ Hup Hpoll) in Hrun.
    destruct (json_truthy url).
    + destruct (download_document _ _ _ _) as [[e|[]] w3]; inversion Hrun;
        [by right|left; by eexists].
    + inversion Hrun. left. by eexists.
Qed.

(** ** Reporting *)

Lemma report_line_fallback e :
  report_line (fallback e) = Returned ("  ❌ ???: error: " +:+ str_exn e).
Proof. reflexivity. Qed.

Lemma report_line_job files msg b :
  ∃ line, report_line (<["msg" := PStr msg]> (<["success" := PBool b]> (new_result files)))
          = Returned line.
Proof.
  unfold report_line, file_names, dict_getitem, new_result.
  simplify_map_eq. destruct (path_name <$> files); simpl; simplify_map_eq; by eexists.
Qed.

Lemma report_line_recorded env files watermark out_path w future w' :
  catch (process_files env files watermark out_path) w = (Returned future, w') →
  ∃ line, report_line (recorded future) = Returned line.
Proof.
  unfold catch. destruct (process_files _ _ _ _ _) as [[e|r] w1] eqn:Hrun; intros [= <- <-].
  - eexists. apply report_line_fallback.
  - apply process_files_shapes in Hrun as [[msg ->]| ->]; simpl.
    + replace (new_result files) with (<["success" := PBool false]> (new_result files)).
      * apply report_line_job.
      * by apply insert_id.
    + apply report_line_job.
Qed.

Lemma report_spec results : ∀ lines w,
  Forall2 (λ r line, report_line r = Returned line) results lines →
  report results w =
  (Returned tt,
   {| fs := fs w; handles := handles w; trace := trace w;
      stdout := stdout w ++ ((λ line, line +:+ nl) <$> lines) |}).
Proof.
  induction results as [|r rest IH]; intros lines w Hlines.
  - inversion Hlines; subst. simpl. rewrite app_nil_r. by destruct w.
  - inversion Hlines as [|? line ? lines' Hline Hrest]; subst. simpl.
    unfold echo. munfold. rewrite Hline. rewrite (IH lines') by done. simpl.
    by rewrite <- app_assoc.
Qed.

(** ** Scheduling *)

Lemma submit_all_spec env watermark output_dir files : ∀ w,
  ∃ futures w1,
    submit_all env files watermark output_dir w = (Returned futures, w1) ∧
    length futures = length files ∧
    Forall (λ future, reportable (recorded future)) futures.
Proof.
  induction files as [|file rest IH]; intros w; simpl.
  - exists [], w. by repeat split.
  - unfold mbind at 1, M_bind at 1.
    destruct (catch (process_files env [file] watermark
                (path_join output_dir (path_name file))) w) as [o w1] eqn:Hjob.
    assert (∃ future, o = Returned future) as [future ->].
    { unfold catch in Hjob. destruct (process_files _ _ _ _ _). inversion Hjob. by eexists. }
    apply report_line_recorded in Hjob.
    destruct (IH w1) as (futures & w2 & Hrest & Hlen & Hrep).
    exists (future :: futures), w2. munfold. rewrite Hrest. simpl.
    repeat split; [by rewrite Hlen|by constructor].
Qed.

Lemma insert_by_perm {A} key (x : nat * A) l : insert_by key x l ≡ₚ x :: l.
Proof.
  induction l as [|y rest IH]; simpl; [done|].
  destruct (key x.1 <=? key y.1)%nat; [done|].
  rewrite IH. apply Permutation_swap.
Qed.

Lemma snd_imap_pair {A} (l : list A) : ∀ g : nat → nat,
  snd <$> imap (λ i x, (g i, x)) l = l.
Proof.
  induction l as [|x rest IH]; intros g; simpl; [done|].
  f_equal. apply (IH (g ∘ S)).
Qed.

Lemma as_completed_perm {A} env (futures : list A) : as_completed env futures ≡ₚ futures.
Proof.
  unfold as_completed.
  transitivity (snd <$> imap pair futures).
  - apply fmap_Permutation.
    induction (imap pair futures) as [|x rest IH]; simpl; [done|].
    by rewrite insert_by_perm, IH.
  - assert (snd <$> imap pair futures = futures) as ->; [|done].
    apply (snd_imap_pair futures id).
Qed.

Lemma collect_spec total futures : ∀ results processed w,
  ∃ w1, collect total futures results processed w =
        (Returned (results ++ (recorded <$> futures)), w1).
Proof.
  induction futures as [|future rest IH]; intros results processed w; simpl.
  - exists w. by rewrite app_nil_r.
  - unfold echo_no_nl. munfold.
    destruct future as [e|r]; simpl;
      edestruct IH as [w1 ->]; exists w1; by rewrite <- app_assoc.
Qed.

(** In per-file mode [results] holds what was recorded for each future, in
    completion order. *)
Lemma run_jobs_per_file env files watermark output_dir aggregate_output w :
  ∃ w1, run_jobs env files watermark output_dir false aggregate_output w =
        (Returned (recorded <$> as_completed env (futures_of env files watermark output_dir w)), w1).
Proof.
  unfold run_jobs, futures_of, echo. munfold.
  edestruct (submit_all_spec env watermark output_dir files) as (futures & w1 & -> & _ & _).
  unfold echo_no_nl.
  edestruct (collect_spec (length futures) (as_completed env futures)) as [w2 ->].
  eexists. reflexivity.
Qed.

Lemma futures_of_spec env files watermark output_dir w :
  length (futures_of env files watermark output_dir w) = length files ∧
  Forall (λ future, reportable (recorded future)) (futures_of env files watermark output_dir w).
Proof.
  unfold futures_of, echo. munfold.
  edestruct (submit_all_spec env watermark output_dir files) as (futures & w1 & -> & Hlen & Hrep).
  done.
Qed.

(** In aggregate mode [results] is the one dictionary of the one job, when
    that job returns. *)
Lemma run_jobs_aggregate env files watermark output_dir aggregate_output w :
  run_jobs env files watermark output_dir true aggregate_output w =
  match process_files env files watermark (path_join output_dir aggregate_output)
          (echo ("➡️ Aggregated mode: uploading " +:+ pretty (length files) +:+ " files…") w).2 with
  | (Raised e, w1) => (Raised e, w1)
  | (Returned r, w1) => (Returned [r], w1)
  end.
Proof. unfold run_jobs, echo. munfold. simpl. by destruct (process_files _ _ _ _ _) as [[e|r] w1]. Qed.

(** What [main] prints once [results] is known. *)
Lemma main_report env files watermark output_dir aggregate aggregate_output w results w1 :
  files ≠ [] →
  run_jobs env files watermark output_dir aggregate aggregate_output w = (Returned results, w1) →
  Forall reportable results →
  ∃ lines w2,
    main env files watermark output_dir aggregate aggregate_output w = (Returned tt, w2) ∧
    Forall2 (λ r line, report_line r = Returned line) results lines ∧
    stdout w2 = stdout w1 ++ [(nl +:+ "📄 Results:") +:+ nl]
                ++ ((λ line, line +:+ nl) <$> lines) ++ [(nl +:+ "🎉 Done!") +:+ nl].
Proof.
  intros Hne Hrun Hrep.
  assert (∃ lines, Forall2 (λ r line, report_line r = Returned line) results lines) as [lines Hlines].
  { clear Hrun. induction Hrep as [|r rest [line Hline] _ [lines IH]].
    - by exists [].
    - exists (line :: lines). by constructor. }
  exists lines. destruct files as [|file rest]; [done|].
  unfold main. munfold. rewrite Hrun. unfold echo at 1. simpl.
  erewrite report_spec by done. unfold echo. simpl.
  eexists. repeat split; [done|]. by rewrite <- !app_assoc.
Qed.

(** The value or exception of [upload_files] once every file was opened. *)
Lemma upload_files_result env files watermark w payload fhs w1 :
  upload_loop env files [] [] w = (Returned tt, (payload, fhs), w1) →
  (upload_files env files watermark w).1 =
  match env_http env (trace w1) (PostFiles payload watermark) with
  | ConnectionFailed msg => Raised (RequestException msg)
  | Responded r =>
      match raise_for_status r with
      | Raised e => Raised e
      | Returned _ =>
          match json_body r with
          | inl msg => Raised (JSONDecodeError msg)
          | inr data => json_get data "token"
          end
      end
  end.
Proof.
  intros Hloop. unfold upload_files. rewrite Hloop. unfold http, response_json. munfold.
  destruct (env_http env (trace w1) _) as [msg|r]; simpl.
  - by destruct (close_all _ _ _).
  - destruct (raise_for_status r) as [e|[]]; simpl; [by destruct (close_all _ _ _)|].
    destruct (json_body r) as [msg|data]; simpl; by destruct (close_all _ _ _).
Qed.

(** ** The claims *)

(** C3: a job whose poll attempts never report ready makes exactly
    floor(60 / 3) = 20 attempts, each followed by a pause of 3, then returns
    the message "timeout" with success false, and makes no fetch call. *)
Theorem poll_budget_exhausted env files watermark out_path w token w1 :
  upload_files env files watermark w = (Returned token, w1) →
  (∀ k, (k < 20)%nat → ready_url (answer env w1 token k) = None) →
  ∃ r w2 evs,
    process_files env files watermark out_path w = (Returned r, w2) ∧
    Z.to_nat (60 / 3) = 20%nat ∧
    w2 = extend (concat (replicate 20 [EvRequest (GetUrl token); EvSleep 3])) w1 ∧
    length (filter (λ e, is_poll e = true) (trace w2)) =
      (length (filter (λ e, is_poll e = true) (trace w1)) + 20)%nat ∧
    r !! "success" = Some (PBool false) ∧
    r !! "msg" = Some (PStr "timeout") ∧
    trace w2 = trace w ++ evs ∧ Forall (λ e, is_fetch e = false) evs.
Proof.
  intros Hup Hnr.
  pose proof (poll_until_ready_not_ready env token 60 w1 Hnr) as Hpoll.
  change (Z.to_nat (60 / 3)) with 20%nat in Hpoll.
  destruct (upload_files_spec _ _ _ _ _ _ Hup) as (_ & _ & _ & evs1 & Htr & Hevs1).
  eexists _, _, (evs1 ++ concat (replicate 20 (poll_round token))).
  split; [by rewrite (process_files_uploaded _ _ _ _ _ _ _ _ _ Hup Hpoll)|].
  split; [done|]. split; [done|].
  split; [|split; [apply new_result_msg|split; [apply new_result_msg|split]]].
  - unfold extend; simpl trace. rewrite filter_app, length_app.
    f_equal; apply (poll_rounds_attempts token 20).
  - unfold extend; simpl trace. by rewrite Htr, <- app_assoc.
  - apply Forall_app; split; [|apply poll_rounds_no_fetch].
    eapply Forall_impl; [exact Hevs1|]. intros e He. by apply upload_call_kind in He as (_ & ? & _).
Qed.

Lemma poll_budget_exhausted_witness :
  ∃ r w2 evs,
    process_files env_pending ["d/a.pdf"] "wm" "out/a.pdf" world0 = (Returned r, w2) ∧
    Z.to_nat (60 / 3) = 20%nat ∧
    w2 = extend (concat (replicate 20 [EvRequest (GetUrl (JStr "t1")); EvSleep 3]))
           (upload_files env_pending ["d/a.pdf"] "wm" world0).2 ∧
    length (filter (λ e, is_poll e = true) (trace w2)) =
      (length (filter (λ e, is_poll e = true)
                 (trace (upload_files env_pending ["d/a.pdf"] "wm" world0).2)) + 20)%nat ∧
    r !! "success" = Some (PBool false) ∧
    r !! "msg" = Some (PStr "timeout") ∧
    trace w2 = trace world0 ++ evs ∧ Forall (λ e, is_fetch e = false) evs.
Proof.
  apply (poll_budget_exhausted env_pending ["d/a.pdf"] "wm" "out/a.pdf" world0 (JStr "t1")).
  - vm_compute. reflexivity.
  - intros k _. reflexivity.
Defined.

(** C5: when the submit call of a job fails, the job makes no poll and no
    fetch call, and returns success false with the message "upload failed: "
    followed by the text of the error. *)
Theorem upload_failure_stops_job env files watermark out_path w e w1 :
  upload_files env files watermark w = (Raised e, w1) →
  ∃ r evs,
    process_files env files watermark out_path w = (Returned r, w1) ∧
    r !! "success" = Some (PBool false) ∧
    r !! "msg" = Some (PStr ("upload failed: " +:+ str_exn e)) ∧
    r !! "files" = Some (PNames (path_name <$> files)) ∧
    trace w1 = trace w ++ evs ∧
    Forall (λ ev, is_poll ev = false ∧ is_fetch ev = false) evs.
Proof.
  intros Hup.
  destruct (upload_files_spec _ _ _ _ _ _ Hup) as (_ & _ & _ & evs & Htr & Hevs).
  eexists _, evs. split; [by apply process_files_upload_raised|].
  repeat split; try apply new_result_msg; [done|].
  eapply Forall_impl; [exact Hevs|]. intros ev Hev.
  by apply upload_call_kind in Hev as (? & ? & _).
Qed.

Lemma upload_failure_stops_job_witness :
  ∃ r evs,
    process_files env_upload_500 ["d/a.pdf"; "d/b.png"] "wm" "out/all.pdf" world0 =
      (Returned r, (upload_files env_upload_500 ["d/a.pdf"; "d/b.png"] "wm" world0).2) ∧
    r !! "success" = Some (PBool false) ∧
    r !! "msg" = Some (PStr ("upload failed: " +:+
      "500 Server Error: Internal Server Error for url: https://api.filigrane.beta.gouv.fr/api/document")) ∧
    r !! "files" = Some (PNames ["a.pdf"; "b.png"]) ∧
    trace (upload_files env_upload_500 ["d/a.pdf"; "d/b.png"] "wm" world0).2 = trace world0 ++ evs ∧
    Forall (λ ev, is_poll ev = false ∧ is_fetch ev = false) evs.
Proof.
  apply (upload_failure_stops_job env_upload_500 ["d/a.pdf"; "d/b.png"] "wm" "out/all.pdf" world0
           (HTTPError "500 Server Error: Internal Server Error for url: https://api.filigrane.beta.gouv.fr/api/document")).
  vm_compute. reflexivity.
Defined.

(** C6: when the fetch call of a job fails (transport error, or a 4xx or
    5xx status) after a poll that returned a locator, the job returns success
    false with the message "download failed", makes no write, and leaves every
    file, the one at its output path included, as it was. *)
Theorem fetch_failure_writes_nothing env files watermark out_path w token w1 url w2 :
  upload_files env files watermark w = (Returned token, w1) →
  poll_until_ready env token 60 w1 = (Returned url, w2) →
  json_truthy url = true →
  fetch_fails (env_http env (trace w2) (GetDocument token)) →
  ∃ r w3 evs,
    process_files env files watermark out_path w = (Returned r, w3) ∧
    r !! "success" = Some (PBool false) ∧
    r !! "msg" = Some (PStr "download failed") ∧
    fs w3 = fs w ∧
    fs w3 !! out_path = fs w !! out_path ∧
    trace w3 = trace w ++ evs ∧ Forall (λ ev, is_write ev = false) evs.
Proof.
  intros Hup Hpoll Hurl Hfail.
  apply fetch_fails_failure in Hfail as [e Hfail].
  destruct (upload_files_spec _ _ _ _ _ _ Hup) as (Hfs1 & _ & _ & evs1 & Htr1 & Hevs1).
  destruct (poll_loop_frame env token (Z.to_nat (60 / 3)) w1) as (url' & evs2 & Hpoll' & Hevs2).
  unfold poll_until_ready in Hpoll. rewrite Hpoll' in Hpoll. inversion Hpoll; subst url' w2.
  fold (poll_until_ready env token 60) in Hpoll'.
  eexists _, _, (evs1 ++ evs2 ++ [EvRequest (GetDocument token)]).
  split.
  { rewrite (process_files_uploaded _ _ _ _ _ _ _ _ _ Hup Hpoll'), Hurl.
    by rewrite (download_document_failed _ _ _ _ e Hfail). }
  simpl. rewrite Htr1, Hfs1, <- !app_assoc.
  repeat split; try apply new_result_msg.
  rewrite !Forall_app. repeat split.
  - eapply Forall_impl; [exact Hevs1|]. intros ev Hev. by apply upload_call_kind in Hev as (_ & _ & ?).
  - eapply Forall_impl; [exact Hevs2|]. by intros ev (_ & ? & _).
  - by repeat constructor.
Qed.

Lemma fetch_failure_writes_nothing_witness :
  ∃ r w3 evs,
    process_files env_fetch_404 ["d/a.pdf"] "wm" "out/a.pdf" world0 = (Returned r, w3) ∧
    r !! "success" = Some (PBool false) ∧
    r !! "msg" = Some (PStr "download failed") ∧
    fs w3 = fs world0 ∧
    fs w3 !! "out/a.pdf" = fs world0 !! "out/a.pdf" ∧
    trace w3 = trace world0 ++ evs ∧ Forall (λ ev, is_write ev = false) evs.
Proof.
  apply (fetch_failure_writes_nothing env_fetch_404 ["d/a.pdf"] "wm" "out/a.pdf" world0
           (JStr "t1") (upload_files env_fetch_404 ["d/a.pdf"] "wm" world0).2
           (JStr "https://files/t1")
           (poll_until_ready env_fetch_404 (JStr "t1") 60
              (upload_files env_fetch_404 ["d/a.pdf"] "wm" world0).2).2).
  - vm_compute. reflexivity.
  - vm_compute. reflexivity.
  - reflexivity.
  - right. eexists. split; [reflexivity|]. simpl. lia.
Defined.

(** C7: a job returns success true only when the submit call returned, the
    poll loop returned a locator, the fetch succeeded and its body was written
    to the output path, replacing what was there; the message is then the
    output path. *)
Theorem success_needs_all_steps env files watermark out_path w r w' :
  process_files env files watermark out_path w = (Returned r, w') →
  r !! "success" = Some (PBool true) →
  ∃ token w1 url w2 resp,
    upload_files env files watermark w = (Returned token, w1) ∧
    poll_until_ready env token 60 w1 = (Returned url, w2) ∧
    json_truthy url = true ∧
    env_http env (trace w2) (GetDocument token) = Responded resp ∧
    raise_for_status resp = Returned tt ∧
    env_write env (trace w2 ++ [EvRequest (GetDocument token)]) out_path (content resp) = WriteOk ∧
    fs w' = <[out_path := content resp]> (fs w) ∧
    fs w' !! out_path = Some (content resp) ∧
    r !! "msg" = Some (PStr out_path).
Proof.
  intros Hrun Hsucc.
  destruct (upload_files env files watermark w) as [[e|token] w1] eqn:Hup.
  { rewrite (process_files_upload_raised _ _ _ _ _ _ _ Hup) in Hrun. inversion Hrun; subst.
    destruct (new_result_msg files ("upload failed: " +:+ str_exn e)) as (_ & Hs & _). congruence. }
  destruct (upload_files_spec _ _ _ _ _ _ Hup) as (Hfs1 & _).
  destruct (poll_loop_frame env token (Z.to_nat (60 / 3)) w1) as (url & evs & Hpoll & _).
  fold (poll_until_ready env token 60) in Hpoll.
  rewrite (process_files_uploaded _ _ _ _ _ _ _ _ _ Hup Hpoll) in Hrun.
  destruct (json_truthy url) eqn:Hurl.
  2:{ inversion Hrun; subst.
      destruct (new_result_msg files "timeout") as (_ & Hs & _). congruence. }
  destruct (download_document env token out_path (extend evs w1)) as [[e|[]] w3] eqn:Hdl;
    inversion Hrun; subst.
  2:{ destruct (new_result_msg files "download failed") as (_ & Hs & _). congruence. }
  apply download_document_true in Hdl as (resp & Hres & Hok & Hwr & ->).
  exists token, w1, url, (extend evs w1), resp. simpl.
  repeat split; rewrite ?Hfs1, ?lookup_insert_eq; done.
Qed.

Lemma success_needs_all_steps_witness :
  ∃ token w1 url w2 resp,
    upload_files env_ok ["d/a.pdf"] "wm" world0 = (Returned token, w1) ∧
    poll_until_ready env_ok token 60 w1 = (Returned url, w2) ∧
    json_truthy url = true ∧
    env_http env_ok (trace w2) (GetDocument token) = Responded resp ∧
    raise_for_status resp = Returned tt ∧
    env_write env_ok (trace w2 ++ [EvRequest (GetDocument token)]) "out/a.pdf" (content resp) = WriteOk ∧
    fs (process_files env_ok ["d/a.pdf"] "wm" "out/a.pdf" world0).2
      = <["out/a.pdf" := content resp]> (fs world0) ∧
    fs (process_files env_ok ["d/a.pdf"] "wm" "out/a.pdf" world0).2 !! "out/a.pdf"
      = Some (content resp) ∧
    <["msg" := PStr "out/a.pdf"]> (<["success" := PBool true]> (new_result ["d/a.pdf"])) !! "msg"
      = Some (PStr "out/a.pdf").
Proof.
  apply (success_needs_all_steps env_ok ["d/a.pdf"] "wm" "out/a.pdf" world0
           (<["msg" := PStr "out/a.pdf"]> (<["success" := PBool true]> (new_result ["d/a.pdf"])))
           (process_files env_ok ["d/a.pdf"] "wm" "out/a.pdf" world0).2).
  - vm_compute. reflexivity.
  - vm_compute. reflexivity.
Defined.

(** C8: whatever [upload_files] does (return a token, fail to open a later
    file, fail in the request), every handle it opened is closed when it
    returns: the open handles are those open before the call. *)
Theorem upload_releases_handles env files watermark w :
  handles (upload_files env files watermark w).2 = handles w.
Proof.
  destruct (upload_files env files watermark w) as [o w'] eqn:Hup.
  by apply upload_files_spec in Hup as (_ & _ & ? & _).
Qed.

(** C9: when a status response is successful and carries the key "url" with
    the empty string, the poll loop returns that empty string at once, and
    the job returns the same dictionary as after an exhausted budget: success
    false, message "timeout"; no fetch call is made. *)
Theorem empty_locator_reported_as_timeout env files watermark out_path w token w1 k resp d :
  upload_files env files watermark w = (Returned token, w1) →
  (k < 20)%nat →
  (∀ j, (j < k)%nat → ready_url (answer env w1 token j) = None) →
  answer env w1 token k = Responded resp →
  raise_for_status resp = Returned tt →
  json_body resp = inr (JObj d) →
  d !! "url" = Some (JStr EmptyString) →
  ∃ w2 evs,
    poll_until_ready env token 60 w1 = (Returned (JStr EmptyString), w2) ∧
    w2 = extend (concat (replicate k [EvRequest (GetUrl token); EvSleep 3])
                 ++ [EvRequest (GetUrl token)]) w1 ∧
    process_files env files watermark out_path w =
      (Returned (<["msg" := PStr "timeout"]> (new_result files)), w2) ∧
    <["msg" := PStr "timeout"]> (new_result files) !! "msg" = Some (PStr "timeout") ∧
    <["msg" := PStr "timeout"]> (new_result files) !! "success" = Some (PBool false) ∧
    trace w2 = trace w ++ evs ∧ Forall (λ e, is_fetch e = false) evs.
Proof.
  intros Hup Hk Hnr Hres Hok Hbody Hurl.
  assert (ready_url (answer env w1 token k) = Some (JStr EmptyString)) as Hready.
  { rewrite Hres. unfold ready_url. by rewrite Hok, Hbody. }
  pose proof (poll_loop_ready_at env token 20 k _ w1 Hk Hnr Hready) as Hpoll.
  change (poll_loop env token 20) with (poll_until_ready env token 60) in Hpoll.
  destruct (upload_files_spec _ _ _ _ _ _ Hup) as (_ & _ & _ & evs1 & Htr & Hevs1).
  eexists _, (evs1 ++ concat (replicate k (poll_round token)) ++ [EvRequest (GetUrl token)]).
  split; [exact Hpoll|]. split; [done|].
  split; [by rewrite (process_files_uploaded _ _ _ _ _ _ _ _ _ Hup Hpoll)|].
  split; [apply new_result_msg|]. split; [apply new_result_msg|].
  simpl. rewrite Htr, <- app_assoc. split; [done|].
  rewrite !Forall_app. repeat split.
  - eapply Forall_impl; [exact Hevs1|]. intros e He. by apply upload_call_kind in He as (_ & ? & _).
  - apply poll_rounds_no_fetch.
  - by repeat constructor.
Qed.

Lemma empty_locator_reported_as_timeout_witness :
  ∃ w2 evs,
    poll_until_ready env_empty_url (JStr "t1") 60
      (upload_files env_empty_url ["d/a.pdf"] "wm" world0).2 = (Returned (JStr EmptyString), w2) ∧
    w2 = extend (concat (replicate 2 [EvRequest (GetUrl (JStr "t1")); EvSleep 3])
                 ++ [EvRequest (GetUrl (JStr "t1"))])
           (upload_files env_empty_url ["d/a.pdf"] "wm" world0).2 ∧
    process_files env_empty_url ["d/a.pdf"] "wm" "out/a.pdf" world0 =
      (Returned (<["msg" := PStr "timeout"]> (new_result ["d/a.pdf"])), w2) ∧
    <["msg" := PStr "timeout"]> (new_result ["d/a.pdf"]) !! "msg" = Some (PStr "timeout") ∧
    <["msg" := PStr "timeout"]> (new_result ["d/a.pdf"]) !! "success" = Some (PBool false) ∧
    trace w2 = trace world0 ++ evs ∧ Forall (λ e, is_fetch e = false) evs.
Proof.
  apply (empty_locator_reported_as_timeout env_empty_url ["d/a.pdf"] "wm" "out/a.pdf" world0
           (JStr "t1") (upload_files env_empty_url ["d/a.pdf"] "wm" world0).2 2
           {| status_code := 200; reason := "OK";
              url := "https://api.filigrane.beta.gouv.fr/api/document";
              json_body := inr (JObj {[ "url" := JStr EmptyString ]}); content := [] |}
           {[ "url" := JStr EmptyString ]}).
  - vm_compute. reflexivity.
  - lia.
  - intros j Hj. destruct j as [|[|j]]; [vm_compute; reflexivity..|lia].
  - vm_compute. reflexivity.
  - reflexivity.
  - reflexivity.
  - vm_compute. reflexivity.
Defined.

(** C10: in per-file mode, for a worker that raised, the scheduler records a
    dictionary with [None] under the key "file" and nothing under "files";
    the report line for it shows "???" where the file name would be. *)
Theorem worker_error_loses_file_name env files watermark output_dir aggregate_output w e :
  Raised e ∈ futures_of env files watermark output_dir w →
  fallback e !! "file" = Some PNone ∧
  fallback e !! "files" = None ∧
  ∃ results w1 w2,
    run_jobs env files watermark output_dir false aggregate_output w = (Returned results, w1) ∧
    fallback e ∈ results ∧
    main env files watermark output_dir false aggregate_output w = (Returned tt, w2) ∧
    ("  ❌ ???: error: " +:+ str_exn e) +:+ nl ∈ stdout w2.
Proof.
  intros Hin. split; [done|]. split; [done|].
  destruct (run_jobs_per_file env files watermark output_dir aggregate_output w) as [w1 Hrun].
  destruct (futures_of_spec env files watermark output_dir w) as [Hlen Hrep].
  set (futures := futures_of env files watermark output_dir w) in *.
  assert (fallback e ∈ recorded <$> as_completed env futures) as Hres.
  { apply (list_elem_of_fmap_2 recorded _ (Raised e)). by rewrite as_completed_perm. }
  assert (files ≠ []) as Hne.
  { intros ->. apply list_elem_of_lookup in Hin as [i Hi].
    apply lookup_lt_Some in Hi. rewrite Hlen in Hi. simpl in Hi. lia. }
  assert (Forall reportable (recorded <$> as_completed env futures)) as Hrep'.
  { apply Forall_fmap. by rewrite as_completed_perm. }
  destruct (main_report _ _ _ _ _ _ _ _ _ Hne Hrun Hrep') as (lines & w2 & Hmain & Hlines & Hout).
  exists (recorded <$> as_completed env futures), w1, w2.
  repeat split; try done.
  rewrite Hout. apply list_elem_of_lookup in Hres as [i Hi].
  destruct (Forall2_lookup_l _ _ _ _ _ Hlines Hi) as (line & Hline & Hrl).
  rewrite report_line_fallback in Hrl. inversion Hrl; subst line.
  rewrite !elem_of_app. right. right. left.
  apply (list_elem_of_fmap_2 (λ line, line +:+ nl)). by apply list_elem_of_lookup_2 in Hline.
Qed.

Lemma worker_error_loses_file_name_witness :
  fallback (OSError "Permission denied") !! "file" = Some PNone ∧
  fallback (OSError "Permission denied") !! "files" = None ∧
  ∃ results w1 w2,
    run_jobs env_write_fails ["d/a.pdf"; "d/b.png"] "wm" "out" false "all.pdf" world0
      = (Returned results, w1) ∧
    fallback (OSError "Permission denied") ∈ results ∧
    main env_write_fails ["d/a.pdf"; "d/b.png"] "wm" "out" false "all.pdf" world0
      = (Returned tt, w2) ∧
    ("  ❌ ???: error: " +:+ "Permission denied") +:+ nl ∈ stdout w2.
Proof.
  apply (worker_error_loses_file_name env_write_fails ["d/a.pdf"; "d/b.png"] "wm" "out" "all.pdf"
           world0 (OSError "Permission denied")).
  vm_compute. apply list_elem_of_here.
Defined.

(** A response without the key "token" makes [upload_files] return [None];
    no exception is raised. *)
Lemma upload_files_missing_token env files watermark w payload fhs w1 r d :
  upload_loop env files [] [] w = (Returned tt, (payload, fhs), w1) →
  env_http env (trace w1) (PostFiles payload watermark) = Responded r →
  raise_for_status r = Returned tt →
  json_body r = inr (JObj d) →
  d !! "token" = None →
  (upload_files env files watermark w).1 = Returned JNull.
Proof.
  intros Hloop Hres Hok Hbody Htok.
  rewrite (upload_files_result _ _ _ _ _ _ _ Hloop), Hres, Hok, Hbody. simpl. by rewrite Htok.
Qed.


(** A job raises only out of the write of the output file. *)
Lemma process_files_raises_in_write env files watermark out_path w e w' :
  process_files env files watermark out_path w = (Raised e, w') →
  ∃ history data, env_write env history out_path data ≠ WriteOk.
Proof.
  intros Hrun.
  destruct (upload_files env files watermark w) as [[e1|token] w1] eqn:Hup.
  { by rewrite (process_files_upload_raised _ _ _ _ _ _ _ Hup) in Hrun. }
  destruct (poll_loop_frame env token (Z.to_nat (60 / 3)) w1) as (url & evs & Hpoll & _).
  rewrite (process_files_uploaded _ _ _ _ _ _ _ _ _ Hup Hpoll) in Hrun.
  destruct (json_truthy url); [|done].
  set (w2 := extend evs w1) in *.
  destruct (fetch_failure (env_http env (trace w2) (GetDocument token))) as [e2|] eqn:Hfail.
  { by rewrite (download_document_failed _ _ _ _ e2 Hfail) in Hrun. }
  unfold fetch_failure in Hfail.
  destruct (env_http env (trace w2) (GetDocument token)) as [msg|r] eqn:Hres; [done|].
  destruct (raise_for_status r) as [e2|[]] eqn:Hok; [done|].
  rewrite (download_document_fetched _ _ _ _ r Hres Hok) in Hrun.
  unfold write_file in Hrun. simpl in Hrun.
  exists (trace w2 ++ [EvRequest (GetDocument token)]), (content r).
  by destruct (env_write env _ out_path (content r)).
Qed.

(** Per-file mode records one dictionary per file. *)
Lemma per_file_one_result_per_file env files watermark output_dir aggregate_output w :
  ∃ results w1,
    run_jobs env files watermark output_dir false aggregate_output w = (Returned results, w1) ∧
    length results = length files.
Proof.
  destruct (run_jobs_per_file env files watermark output_dir aggregate_output w) as [w1 Hrun].
  eexists _, w1. split; [exact Hrun|].
  rewrite length_fmap, as_completed_perm. apply futures_of_spec.
Qed.

(** A per-file run always ends normally and prints one line per file. *)
Lemma per_file_run_returns env files watermark output_dir aggregate_output w :
  files ≠ [] →
  ∃ lines w1 w2,
    main env files watermark output_dir false aggregate_output w = (Returned tt, w2) ∧
    length lines = length files ∧
    stdout w2 = stdout w1 ++ [(nl +:+ "📄 Results:") +:+ nl]
                ++ ((λ line, line +:+ nl) <$> lines) ++ [(nl +:+ "🎉 Done!") +:+ nl].
Proof.
  intros Hne.
  destruct (run_jobs_per_file env files watermark output_dir aggregate_output w) as [w1 Hrun].
  destruct (futures_of_spec env files watermark output_dir w) as [Hlen Hrep].
  assert (Forall reportable
            (recorded <$> as_completed env (futures_of env files watermark output_dir w))) as Hrep'.
  { apply Forall_fmap. by rewrite as_completed_perm. }
  destruct (main_report _ _ _ _ _ _ _ _ _ Hne Hrun Hrep') as (lines & w2 & Hmain & Hlines & Hout).
  exists lines, w1, w2. repeat split; try done.
  apply Forall2_length in Hlines. rewrite <- Hlines, length_fmap, as_completed_perm. done.
Qed.

(** Aggregate mode records the one dictionary of its job when the job
    returns, and ends with the job's exception when it raises. *)
Lemma aggregate_one_result env files watermark output_dir aggregate_output w :
  let w0 := (echo ("➡️ Aggregated mode: uploading " +:+ pretty (length files) +:+ " files…") w).2 in
  let job := process_files env files watermark (path_join output_dir aggregate_output) w0 in
  (∀ r, job.1 = Returned r →
        run_jobs env files watermark output_dir true aggregate_output w = (Returned [r], job.2)) ∧
  (∀ e, job.1 = Raised e → files ≠ [] →
        main env files watermark output_dir true aggregate_output w = (Raised e, job.2)).
Proof.
  intros w0 job. split.
  - intros r Hjob. rewrite run_jobs_aggregate. fold w0. fold job.
    destruct job as [o w1]. simpl in *. by subst o.
  - intros e Hjob Hne. destruct files as [|file rest]; [done|].
    unfold main. munfold. rewrite run_jobs_aggregate. fold w0. fold job.
    destruct job as [o w1]. simpl in *. by subst o.
Qed.

(** C1: a POST answered with status 200 and a JSON object without the key
    "token" does not make [upload_files] fail: it returns [None], and the job
    goes on to poll with that absent token, twenty times, and reports
    "timeout" rather than "upload failed: ...". *)
Theorem missing_token_is_polled :
  (upload_files env_no_token ["d/a.pdf"] "wm" world0).1 = Returned JNull ∧
  (process_files env_no_token ["d/a.pdf"] "wm" "out/a.pdf" world0).1 =
    Returned (<["msg" := PStr "timeout"]> (new_result ["d/a.pdf"])) ∧
  trace (process_files env_no_token ["d/a.pdf"] "wm" "out/a.pdf" world0).2 =
    [EvOpen "d/a.pdf"; EvRequest (PostFiles [("a.pdf", 0%nat, "application/pdf")] "wm"); EvClose 0]
    ++ concat (replicate 20 [EvRequest (GetUrl JNull); EvSleep 3]).
Proof. vm_compute. repeat split; reflexivity. Qed.

(** C2: in aggregate mode an error raised while the output file is written
    leaves [process_files] and then [main]: the run ends with the exception
    and prints no result.  Per-file mode, with the same environment, records
    the error and ends normally. *)
Theorem aggregate_write_error_ends_run :
  (main env_write_fails ["d/a.pdf"; "d/b.png"] "wm" "out" true "all.pdf" world0).1 =
    Raised (OSError "Permission denied") ∧
  stdout (main env_write_fails ["d/a.pdf"; "d/b.png"] "wm" "out" true "all.pdf" world0).2 =
    ["➡️ Aggregated mode: uploading 2 files…" +:+ nl] ∧
  (main env_write_fails ["d/a.pdf"; "d/b.png"] "wm" "out" false "all.pdf" world0).1 =
    Returned tt.
Proof. vm_compute. repeat split; reflexivity. Qed.

(** C4: in aggregate mode, when the write of the output file raises, no
    result dictionary is produced for the non-empty file list, while per-file
    mode yields one per file. *)
Theorem aggregate_write_error_no_result :
  (run_jobs env_write_fails ["d/a.pdf"; "d/b.png"] "wm" "out" true "all.pdf" world0).1 =
    Raised (OSError "Permission denied") ∧
  (run_jobs env_write_fails ["d/a.pdf"; "d/b.png"] "wm" "out" false "all.pdf" world0).1 =
    Returned [fallback (OSError "Permission denied"); fallback (OSError "Permission denied")].
Proof. vm_compute. repeat split; reflexivity. Qed.

(** * Further properties *)

(** ** File names and extensions *)


Lemma after_last_absent c s : occurs c s = false → after_last c s = None.
Proof.
  induction s as [|a s IH]; simpl; [done|].
  intros [Ha Hs]%orb_false_iff. by rewrite (IH Hs), Ha.
Qed.

Lemma after_last_app c a b :
  occurs c b = false → after_last c (a +:+ String c b) = Some b.
Proof.
  intros Hb. induction a as [|x a IH]; simpl.
  - by rewrite (after_last_absent c b Hb), Ascii.eqb_refl.
  - by rewrite IH.
Qed.






Lemma path_name_in_dir dir name :
  occurs "/" name = false → path_name (dir +:+ "/" +:+ name) = name.
Proof.
  intros Hname. unfold path_name.
  change (dir +:+ "/" +:+ name) with (dir +:+ String "/" name).
  by rewrite (after_last_app "/" dir name Hname).
Qed.



(** X2: a name without a dot after its first character (no dot at all, or a
    hidden file such as [.pdf]) has the empty extension. *)
Theorem get_file_ext_no_suffix dir a rest :
  occurs "/" (String a rest) = false → occurs "." rest = false →
  get_file_ext (dir +:+ "/" +:+ String a rest) = EmptyString.
Proof.
  intros Hslash Hdot. unfold get_file_ext, path_suffix.
  rewrite path_name_in_dir by done. simpl after_last.
  rewrite (after_last_absent "." rest Hdot).
  destruct (Ascii.eqb a "."); [|done].
  replace (_ && _) with false; [done|].
  symmetry. apply andb_false_iff. right. apply Nat.ltb_ge. simpl. lia.
Qed.

Lemma get_file_ext_no_suffix_witness :
  get_file_ext ("docs" +:+ "/" +:+ String "." "pdf") = EmptyString.
Proof. apply get_file_ext_no_suffix; done. Defined.

(** ** Scanning the folder *)



Lemma insert_path_perm x l : insert_path x l ≡ₚ x :: l.
Proof.
  induction l as [|y rest IH]; simpl; [done|].
  destruct (String.leb x.1 y.1); [done|]. rewrite IH. apply Permutation_swap.
Qed.

Lemma sorted_paths_perm l : sorted_paths l ≡ₚ l.
Proof.
  induction l as [|x rest IH]; simpl; [done|]. by rewrite insert_path_perm, IH.
Qed.




Lemma collect_loop_spec entries : ∀ files w,
  ∃ out,
    collect_loop entries files w =
    (Returned (files ++ (filter (λ e, kept e = true) entries).*1),
     {| fs := fs w; handles := handles w; trace := trace w; stdout := stdout w ++ out |}).
Proof.
  induction entries as [|[f is_file] rest IH]; intros files w; simpl.
  - exists []. rewrite !app_nil_r. by destruct w.
  - destruct is_file; simpl.
    + destruct (decide (get_file_ext f ∈ SUPPORTED_EXT)) as [Hext|Hext].
      * rewrite (bool_decide_eq_true_2 _ Hext).
        rewrite filter_cons_True by (unfold kept; simpl; by apply bool_decide_eq_true_2).
        unfold echo at 1. munfold. edestruct IH as [out ->]. simpl.
        eexists. by rewrite <- !app_assoc.
      * rewrite (bool_decide_eq_false_2 _ Hext).
        rewrite filter_cons_False
          by (unfold kept; simpl; rewrite (bool_decide_eq_false_2 _ Hext); done).
        unfold echo at 1. munfold. edestruct IH as [out ->]. simpl.
        eexists. by rewrite <- !app_assoc.
    + rewrite filter_cons_False by done. apply IH.
Qed.


(** X4: the two tables agree: an extension is supported exactly when it has
    a content type, so a collected file never lacks one. *)
Theorem supported_iff_content_type ext :
  ext ∈ SUPPORTED_EXT ↔ is_Some (CONTENT_TYPES !! ext).
Proof.
  rewrite <- elem_of_dom. unfold CONTENT_TYPES, SUPPORTED_EXT.
  rewrite dom_list_to_map_L. simpl. set_solver.
Qed.

(** ** Uploading, further *)

Lemma close_all_trace env fhs : ∀ w,
  ∃ w1, close_all env fhs w = (Returned tt, w1) ∧
        trace w1 = trace w ++ (EvClose <$> fhs).
Proof.
  induction fhs as [|fh rest IH]; intros w; simpl.
  - exists w. by rewrite app_nil_r.
  - unfold close. munfold.
    destruct (env_close env (trace w) fh);
      edestruct IH as (w1 & -> & Htr); exists w1; (split; [done|]);
      rewrite Htr; simpl; by rewrite <- app_assoc.
Qed.

Lemma upload_loop_trace env files : ∀ payload fhs w o payload' fhs' w1,
  upload_loop env files payload fhs w = (o, (payload', fhs'), w1) →
  ∃ evs, trace w1 = trace w ++ evs ∧ Forall (λ e, is_open e = true) evs.
Proof.
  induction files as [|file rest IH]; intros payload fhs w o payload' fhs' w1 Hrun; simpl in Hrun.
  - inversion Hrun; subst. exists []. by rewrite app_nil_r.
  - unfold open_rb in Hrun.
    destruct (env_open env (trace w) file) as [msg|].
    + inversion Hrun; subst. exists [EvOpen file]. by repeat constructor.
    + destruct (CONTENT_TYPES !! get_file_ext file) as [ctype|].
      * apply IH in Hrun as (evs & Htr & Hevs). simpl in Htr.
        exists (EvOpen file :: evs). rewrite <- app_assoc in Htr. by repeat constructor.
      * inversion Hrun; subst. exists [EvOpen file]. by repeat constructor.
Qed.

Lemma upload_loop_ok env files : ∀ payload fhs w,
  Forall (λ f, is_Some (CONTENT_TYPES !! get_file_ext f)) files →
  (∀ history f, f ∈ files → env_open env history f = None) →
  ∃ parts w1,
    upload_loop env files payload fhs w =
      (Returned tt, (payload ++ parts, fhs ++ parts.*1.*2), w1) ∧
    trace w1 = trace w ++ (EvOpen <$> files) ∧
    Forall2 (λ f p, p.1.1 = path_name f ∧ CONTENT_TYPES !! get_file_ext f = Some p.2)
            files parts.
Proof.
  induction files as [|file rest IH]; intros payload fhs w Hsup Hopen; simpl.
  - exists [], w. rewrite !app_nil_r. by repeat split.
  - inversion Hsup as [|? ? [ctype Hctype] Hsup']; subst.
    unfold open_rb. rewrite (Hopen _ file) by apply list_elem_of_here. rewrite Hctype.
    edestruct (IH (payload ++ [(path_name file, fresh (handles w), ctype)])
                  (fhs ++ [fresh (handles w)])) as (parts & w1 & -> & Htr & Hparts);
      [done|by intros; apply Hopen; apply list_elem_of_further|].
    exists ((path_name file, fresh (handles w), ctype) :: parts), w1.
    simpl in *. rewrite <- !app_assoc in *. simpl.
    repeat split; try done. by constructor.
Qed.

Lemma upload_loop_bad env files f :
  f ∈ files →
  (∀ history, is_Some (env_open env history f)) ∨ CONTENT_TYPES !! get_file_ext f = None →
  ∀ payload fhs w, ∃ e payload' fhs' w1,
    upload_loop env files payload fhs w = (Raised e, (payload', fhs'), w1).
Proof.
  intros Hin Hbad. induction files as [|file rest IH]; [by apply elem_of_nil in Hin|].
  intros payload fhs w. simpl. unfold open_rb.
  destruct (env_open env (trace w) file) as [msg|] eqn:Hopen; [by eexists _, _, _, _|].
  destruct (CONTENT_TYPES !! get_file_ext file) as [ctype|] eqn:Hctype; [|by eexists _, _, _, _].
  apply elem_of_cons in Hin as [->|Hin].
  - destruct Hbad as [Hbad|Hbad]; [|congruence].
    destruct (Hbad (trace w)) as [msg Hmsg]. congruence.
  - by apply IH.
Qed.

(** X5: when every file has a known content type and opens, [upload_files]
    opens the files in order, makes exactly one POST that carries every file
    in order under its name and content type, then closes every handle of
    the payload. *)
Theorem upload_posts_once env files watermark w :
  Forall (λ f, is_Some (CONTENT_TYPES !! get_file_ext f)) files →
  (∀ history f, f ∈ files → env_open env history f = None) →
  ∃ payload o w1,
    upload_files env files watermark w = (o, w1) ∧
    trace w1 = trace w ++ (EvOpen <$> files) ++ [EvRequest (PostFiles payload watermark)]
                       ++ (EvClose <$> payload.*1.*2) ∧
    Forall2 (λ f p, p.1.1 = path_name f ∧ CONTENT_TYPES !! get_file_ext f = Some p.2)
            files payload.
Proof.
  intros Hsup Hopen.
  destruct (upload_loop_ok env files [] [] w Hsup Hopen) as (payload & w1 & Hloop & Htr & Hparts).
  simpl in Hloop. unfold upload_files. rewrite Hloop.
  set (post := (r ← http env (PostFiles payload watermark); _) w1).
  assert (trace post.2 = trace w1 ++ [EvRequest (PostFiles payload watermark)]) as Htr2.
  { subst post. unfold http, response_json. munfold.
    destruct (env_http env (trace w1) _) as [msg|r]; simpl; [done|].
    destruct (raise_for_status r) as [e|[]]; simpl; [done|].
    by destruct (json_body r) as [msg|data]. }
  destruct post as [res w2]. simpl in Htr2.
  destruct (close_all_trace env payload.*1.*2 w2) as (w3 & -> & Htr3).
  exists payload, res, w3. repeat split; [|done].
  by rewrite Htr3, Htr2, Htr, <- !app_assoc.
Qed.

Lemma upload_posts_once_witness :
  ∃ payload o w1,
    upload_files env_ok ["docs/bill.pdf"; "docs/scan.PNG"] "wm" world0 = (o, w1) ∧
    trace w1 = trace world0 ++ (EvOpen <$> ["docs/bill.pdf"; "docs/scan.PNG"])
                       ++ [EvRequest (PostFiles payload "wm")]
                       ++ (EvClose <$> payload.*1.*2) ∧
    Forall2 (λ f p, p.1.1 = path_name f ∧ CONTENT_TYPES !! get_file_ext f = Some p.2)
            ["docs/bill.pdf"; "docs/scan.PNG"] payload.
Proof.
  apply (upload_posts_once env_ok ["docs/bill.pdf"; "docs/scan.PNG"] "wm" world0).
  - repeat constructor; by eexists.
  - done.
Defined.

(** X6: one file of the batch that cannot be opened, or whose extension has
    no content type, makes [upload_files] raise without any request being
    sent, whatever the other files are. *)
Theorem upload_all_or_nothing env files watermark w f :
  f ∈ files →
  (∀ history, is_Some (env_open env history f)) ∨ CONTENT_TYPES !! get_file_ext f = None →
  ∃ e w1 evs,
    upload_files env files watermark w = (Raised e, w1) ∧
    trace w1 = trace w ++ evs ∧ Forall (λ ev, is_request ev = false) evs.
Proof.
  intros Hin Hbad.
  destruct (upload_loop_bad env files f Hin Hbad [] [] w) as (e & payload & fhs & w1 & Hloop).
  unfold upload_files. rewrite Hloop.
  apply upload_loop_trace in Hloop as (evs & Htr & Hevs).
  destruct (close_all_trace env fhs w1) as (w2 & -> & Htr2).
  exists e, w2, (evs ++ (EvClose <$> fhs)). split; [done|].
  split; [by rewrite Htr2, Htr, <- app_assoc|].
  apply Forall_app. split.
  - eapply Forall_impl; [exact Hevs|]. by intros [].
  - by apply Forall_fmap, Forall_true.
Qed.

Lemma upload_all_or_nothing_witness :
  ∃ e w1 evs,
    upload_files env_ok ["docs/bill.pdf"; "docs/notes.txt"; "docs/scan.png"] "wm" world0
      = (Raised e, w1) ∧
    trace w1 = trace world0 ++ evs ∧ Forall (λ ev, is_request ev = false) evs.
Proof.
  apply (upload_all_or_nothing env_ok _ "wm" world0 "docs/notes.txt").
  - apply list_elem_of_further, list_elem_of_here.
  - right. reflexivity.
Defined.

(** ** Polling, further *)

Lemma poll_loop_bound env token n : ∀ w,
  ∃ v evs,
    poll_loop env token n w = (Returned v, extend evs w) ∧
    Forall (λ e, e = EvRequest (GetUrl token) ∨ e = EvSleep 3) evs ∧
    (length (filter (λ e, is_poll e = true) evs) ≤ n)%nat.
Proof.
  induction n as [|n IH]; intros w.
  - exists JNull, []. simpl. rewrite extend_nil. repeat split; [constructor|done].
  - rewrite poll_loop_step. destruct (ready_url _) as [v|].
    + exists v, [EvRequest (GetUrl token)]. repeat split; [by repeat constructor|].
      rewrite filter_cons_True by done. simpl. lia.
    + destruct (IH (extend (poll_round token) w)) as (v & evs & -> & Hevs & Hlen).
      exists v, (poll_round token ++ evs). rewrite extend_extend. repeat split.
      * apply Forall_app. split; [|done]. unfold poll_round.
        constructor; [by left|]. constructor; [by right|constructor].
      * unfold poll_round. simpl. rewrite filter_cons_False by done. lia.
Qed.

(** X7: [poll_until_ready] never raises, whatever the service answers; it
    only sends status requests and sleeps 3, sends at most
    floor(timeout_sec / 3) requests, and leaves files, handles and console
    alone. *)
Theorem poll_until_ready_total env token timeout_sec w :
  ∃ v evs,
    poll_until_ready env token timeout_sec w = (Returned v, extend evs w) ∧
    Forall (λ e, e = EvRequest (GetUrl token) ∨ e = EvSleep 3) evs ∧
    (length (filter (λ e, is_poll e = true) evs) ≤ Z.to_nat (timeout_sec / 3))%nat.
Proof. apply poll_loop_bound. Qed.

(** X8: with a timeout below 3 (negative ones included) no request is sent
    at all and the result is [None]. *)
Theorem poll_until_ready_short_timeout env token timeout_sec w :
  timeout_sec < 3 →
  poll_until_ready env token timeout_sec w = (Returned JNull, w).
Proof.
  intros Hlt. unfold poll_until_ready.
  assert (timeout_sec / 3 < 1) as Hdiv by (apply Z.div_lt_upper_bound; lia).
  assert (Z.to_nat (timeout_sec / 3) = 0%nat) as ->
    by (destruct (timeout_sec / 3); [done|lia|done]).
  reflexivity.
Qed.

Lemma poll_until_ready_short_timeout_witness :
  poll_until_ready env_ok (JStr "t1") 2 world0 = (Returned JNull, world0) ∧
  poll_until_ready env_ok (JStr "t1") (-7) world0 = (Returned JNull, world0).
Proof.
  split.
  - apply (poll_until_ready_short_timeout env_ok (JStr "t1") 2 world0). lia.
  - apply (poll_until_ready_short_timeout env_ok (JStr "t1") (-7) world0). lia.
Defined.

(** X9: the loop returns at the first attempt whose response carries the
    key "url": after [k] refused attempts it has sent [k + 1] requests, slept
    [k] times, and does not sleep after the answer. *)
Theorem poll_until_ready_first_ready env token timeout_sec w k v :
  (k < Z.to_nat (timeout_sec / 3))%nat →
  (∀ j, (j < k)%nat → ready_url (answer env w token j) = None) →
  ready_url (answer env w token k) = Some v →
  poll_until_ready env token timeout_sec w =
  (Returned v,
   extend (concat (replicate k [EvRequest (GetUrl token); EvSleep 3])
           ++ [EvRequest (GetUrl token)]) w).
Proof. apply poll_loop_ready_at. Qed.

Lemma poll_until_ready_first_ready_witness :
  poll_until_ready env_ready_third (JStr "t1") 10 world0 =
  (Returned (JStr "https://files/t1"),
   extend (concat (replicate 2 [EvRequest (GetUrl (JStr "t1")); EvSleep 3])
           ++ [EvRequest (GetUrl (JStr "t1"))]) world0).
Proof.
  apply (poll_until_ready_first_ready env_ready_third (JStr "t1") 10 world0 2).
  - vm_compute. lia.
  - intros j Hj. destruct j as [|[|j]]; [reflexivity..|lia].
  - reflexivity.
Defined.

(** X10: a status request that fails in transport, answers 4xx or 5xx,
    carries a body that is not JSON, or a JSON value that is not an object
    (a list or a string holding "url" included) counts as not ready: the
    attempt ends without a value and without an exception. *)
Theorem poll_attempt_swallows_errors env token w :
  fetch_fails (env_http env (trace w) (GetUrl token)) ∨
  (∃ r, env_http env (trace w) (GetUrl token) = Responded r ∧
        ((∃ msg, json_body r = inl msg) ∨
         (∃ data, json_body r = inr data ∧ ∀ d, data ≠ JObj d))) →
  poll_attempt env token w = (Returned None, log (EvRequest (GetUrl token)) w).
Proof.
  intros Hbad. rewrite poll_attempt_eq. do 2 f_equal.
  destruct Hbad as [Hfail|(r & -> & Hbody)].
  - apply fetch_fails_failure in Hfail as [e Hfail]. unfold fetch_failure, ready_url in *.
    destruct (env_http env (trace w) (GetUrl token)) as [msg|r]; [done|].
    by destruct (raise_for_status r).
  - unfold ready_url. destruct (raise_for_status r); [done|].
    destruct Hbody as [[msg ->]|(data & -> & Hdata)]; [done|].
    destruct data; try done. by destruct (Hdata d).
Qed.

Lemma poll_attempt_swallows_errors_witness :
  poll_attempt env_list_body (JStr "t1") world0 =
  (Returned None, log (EvRequest (GetUrl (JStr "t1"))) world0).
Proof.
  apply (poll_attempt_swallows_errors env_list_body (JStr "t1") world0).
  right. eexists. split; [reflexivity|]. right. eexists. split; [reflexivity|done].
Defined.

(** ** One job, further *)

Lemma download_document_frame env token out_path w :
  handles (download_document env token out_path w).2 = handles w ∧
  ∀ p, p ≠ out_path → fs (download_document env token out_path w).2 !! p = fs w !! p.
Proof.
  destruct (fetch_failure (env_http env (trace w) (GetDocument token))) as [e|] eqn:Hfail.
  - by rewrite (download_document_failed _ _ _ _ e Hfail).
  - unfold fetch_failure in Hfail.
    destruct (env_http env (trace w) (GetDocument token)) as [msg|r] eqn:Hres; [done|].
    destruct (raise_for_status r) as [e|[]] eqn:Hok; [done|].
    rewrite (download_document_fetched _ _ _ _ r Hres Hok).
    unfold write_file. simpl.
    destruct (env_write env _ out_path (content r)); simpl;
      (split; [done|]); intros p Hp; by rewrite ?lookup_insert_ne.
Qed.

Lemma process_files_frame env files watermark out_path w :
  handles (process_files env files watermark out_path w).2 = handles w ∧
  ∀ p, p ≠ out_path → fs (process_files env files watermark out_path w).2 !! p = fs w !! p.
Proof.
  destruct (upload_files env files watermark w) as [[e|token] w1] eqn:Hup;
    destruct (upload_files_spec _ _ _ _ _ _ Hup) as (Hfs1 & _ & Hh1 & _).
  { rewrite (process_files_upload_raised _ _ _ _ _ _ _ Hup). simpl. by rewrite Hfs1, Hh1. }
  destruct (poll_loop_frame env token (Z.to_nat (60 / 3)) w1) as (url & evs & Hpoll & _).
  rewrite (process_files_uploaded _ _ _ _ _ _ _ _ _ Hup Hpoll).
  destruct (json_truthy url); [|simpl; by rewrite Hfs1, Hh1].
  destruct (download_document_frame env token out_path (extend evs w1)) as [Hh Hfs].
  simpl in Hh, Hfs. rewrite Hh1 in Hh. rewrite Hfs1 in Hfs.
  by destruct (download_document _ _ _ _) as [[e|[]] w3].
Qed.


(** X11: when the upload returns a token, the poll returns a locator, the
    fetch passes its status check and the write completes, the job returns
    success true with the output path as message, and the output file holds
    the fetched body. *)
Theorem process_files_succeeds env files watermark out_path w token w1 url w2 resp :
  upload_files env files watermark w = (Returned token, w1) →
  poll_until_ready env token 60 w1 = (Returned url, w2) →
  json_truthy url = true →
  env_http env (trace w2) (GetDocument token) = Responded resp →
  raise_for_status resp = Returned tt →
  env_write env (trace w2 ++ [EvRequest (GetDocument token)]) out_path (content resp) = WriteOk →
  ∃ r w3,
    process_files env files watermark out_path w = (Returned r, w3) ∧
    r !! "success" = Some (PBool true) ∧
    r !! "msg" = Some (PStr out_path) ∧
    r !! "files" = Some (PNames (path_name <$> files)) ∧
    fs w3 !! out_path = Some (content resp) ∧
    trace w3 = trace w2 ++ [EvRequest (GetDocument token); EvWrite out_path].
Proof.
  intros Hup Hpoll Hurl Hres Hok Hwr.
  rewrite (process_files_uploaded _ _ _ _ _ _ _ _ _ Hup Hpoll), Hurl.
  rewrite (download_document_fetched _ _ _ _ resp Hres Hok).
  unfold write_file. simpl. rewrite Hwr.
  eexists _, _. split; [reflexivity|]. simpl.
  unfold new_result. rewrite <- app_assoc. by simplify_map_eq.
Qed.

Lemma process_files_succeeds_witness :
  ∃ r w3,
    process_files env_ok ["docs/bill.pdf"] "wm" "out/bill.pdf" world0 = (Returned r, w3) ∧
    r !! "success" = Some (PBool true) ∧
    r !! "msg" = Some (PStr "out/bill.pdf") ∧
    r !! "files" = Some (PNames (path_name <$> ["docs/bill.pdf"])) ∧
    fs w3 !! "out/bill.pdf" = Some [Byte.x25; Byte.x50; Byte.x44; Byte.x46] ∧
    trace w3 =
      trace (poll_until_ready env_ok (JStr "t1") 60
               (upload_files env_ok ["docs/bill.pdf"] "wm" world0).2).2
      ++ [EvRequest (GetDocument (JStr "t1")); EvWrite "out/bill.pdf"].
Proof.
  apply (process_files_succeeds env_ok ["docs/bill.pdf"] "wm" "out/bill.pdf" world0
           (JStr "t1") (upload_files env_ok ["docs/bill.pdf"] "wm" world0).2
           (JStr "https://files/t1")
           (poll_until_ready env_ok (JStr "t1") 60
              (upload_files env_ok ["docs/bill.pdf"] "wm" world0).2).2
           {| status_code := 200; reason := "OK";
              url := "https://api.filigrane.beta.gouv.fr/api/document";
              json_body := inl "Expecting value";
              content := [Byte.x25; Byte.x50; Byte.x44; Byte.x46] |}).
  - vm_compute. reflexivity.
  - vm_compute. reflexivity.
  - reflexivity.
  - reflexivity.
  - reflexivity.
  - reflexivity.
Defined.

(** X12: whatever happens, a job leaves the set of open handles as it found
    it and changes no file other than the one at its output path. *)
Theorem process_files_touches_only_output env files watermark out_path w :
  handles (process_files env files watermark out_path w).2 = handles w ∧
  ∀ p, p ≠ out_path → fs (process_files env files watermark out_path w).2 !! p = fs w !! p.
Proof. apply process_files_frame. Qed.





(** ** Scheduling and reporting, further *)






Lemma process_files_names env files watermark out_path w r w' :
  process_files env files watermark out_path w = (Returned r, w') →
  r !! "files" = Some (PNames (path_name <$> files)) ∧
  ∃ msg b, r !! "msg" = Some (PStr msg) ∧ r !! "success" = Some (PBool b).
Proof.
  intros [[msg ->]| ->]%process_files_shapes.
  - destruct (new_result_msg files msg) as (? & ? & ?). eauto.
  - unfold new_result. split; [by simplify_map_eq|]. eexists _, _. by simplify_map_eq.
Qed.



(** X17: the report line of a job's dictionary keeps its file names, its
    flag and its message: the mark, the names joined by commas (or "???" for
    a job without files), a colon, the message. *)
Theorem report_line_of_job env files watermark out_path w r w' :
  process_files env files watermark out_path w = (Returned r, w') →
  ∃ msg b,
    r !! "msg" = Some (PStr msg) ∧ r !! "success" = Some (PBool b) ∧
    report_line r =
    Returned ((if b then "  ✅ " else "  ❌ ") +:+
              match files with
              | [] => "???"
              | _ => join "," (path_name <$> files)
              end +:+ ": " +:+ msg).
Proof.
  intros (Hfiles & msg & b & Hmsg & Hsucc)%process_files_names.
  exists msg, b. repeat split; try done.
  unfold report_line, file_names, dict_getitem. rewrite Hfiles, Hmsg, Hsucc. simpl.
  destruct files; simpl; by destruct b.
Qed.

Lemma report_line_of_job_witness :
  ∃ msg b,
    <["msg" := PStr "out/all.pdf"]>
      (<["success" := PBool true]> (new_result ["docs/bill.pdf"; "docs/scan.PNG"])) !! "msg"
      = Some (PStr msg) ∧
    <["msg" := PStr "out/all.pdf"]>
      (<["success" := PBool true]> (new_result ["docs/bill.pdf"; "docs/scan.PNG"])) !! "success"
      = Some (PBool b) ∧
    report_line
      (<["msg" := PStr "out/all.pdf"]>
         (<["success" := PBool true]> (new_result ["docs/bill.pdf"; "docs/scan.PNG"]))) =
    Returned ((if b then "  ✅ " else "  ❌ ") +:+
              join "," (path_name <$> ["docs/bill.pdf"; "docs/scan.PNG"]) +:+ ": " +:+ msg).
Proof.
  apply (report_line_of_job env_ok ["docs/bill.pdf"; "docs/scan.PNG"] "wm" "out/all.pdf" world0
           _ (process_files env_ok ["docs/bill.pdf"; "docs/scan.PNG"] "wm" "out/all.pdf" world0).2).
  vm_compute. reflexivity.
Defined.

(** ** A service that always succeeds *)

Lemma process_files_healthy env files watermark out_path w :
  healthy env →
  Forall (λ f, is_Some (CONTENT_TYPES !! get_file_ext f)) files →
  ∃ w1, process_files env files watermark out_path w =
        (Returned (<["msg" := PStr out_path]> (<["success" := PBool true]> (new_result files))),
         w1).
Proof.
  intros (Hopen & Hpost & Hpoll & Hfetch & Hwrite) Hsup.
  destruct (upload_loop_ok env files [] [] w Hsup) as (payload & w0 & Hloop & _ & _);
    [by intros; apply Hopen|].
  simpl in Hloop.
  pose proof (upload_files_result env files watermark w _ _ _ Hloop) as Hup.
  destruct (Hpost (trace w0) payload watermark) as (r & d & tok & Hres & Hok & Hbody & Htok).
  rewrite Hres, Hok, Hbody in Hup. simpl in Hup. rewrite Htok in Hup. simpl in Hup.
  destruct (upload_files env files watermark w) as [o w1] eqn:Hupload. simpl in Hup. subst o.
  destruct (Hpoll (trace w1 ++ concat (replicate 0 (poll_round tok))) tok) as (v & Hready & Hv).
  assert (poll_until_ready env tok 60 w1 =
          (Returned v, extend (concat (replicate 0 (poll_round tok))
                               ++ [EvRequest (GetUrl tok)]) w1)) as Hp.
  { apply (poll_loop_ready_at env tok (Z.to_nat (60 / 3)) 0 v w1); [vm_compute; lia| |done].
    intros j Hj. lia. }
  rewrite (process_files_uploaded _ _ _ _ _ _ _ _ _ Hupload Hp), Hv.
  match goal with |- context [download_document env tok out_path ?w2] =>
    destruct (Hfetch (trace w2) tok) as (resp & Hresp & Hrok);
    rewrite (download_document_fetched env tok out_path w2 resp Hresp Hrok) end.
  unfold write_file. rewrite Hwrite. by eexists.
Qed.

Lemma submit_all_healthy env watermark output_dir files : ∀ w,
  healthy env →
  Forall (λ f, is_Some (CONTENT_TYPES !! get_file_ext f)) files →
  ∃ w1, submit_all env files watermark output_dir w =
        (Returned ((λ f, Returned (success_result output_dir f)) <$> files), w1).
Proof.
  induction files as [|file rest IH]; intros w Henv Hsup; simpl.
  - by exists w.
  - inversion Hsup as [|? ? Hfile Hrest]; subst. munfold.
    destruct (process_files_healthy env [file] watermark
                (path_join output_dir (path_name file)) w Henv) as [w1 ->];
      [by repeat constructor|].
    destruct (IH w1 Henv Hrest) as [w2 ->]. by exists w2.
Qed.

(** X18: when every file has a content type and the service and the disk
    always succeed, a per-file run records, for every file, success true with
    that file's own output path as message, each once. *)
Theorem per_file_all_succeed env files watermark output_dir aggregate_output w :
  healthy env →
  Forall (λ f, is_Some (CONTENT_TYPES !! get_file_ext f)) files →
  ∃ results w1,
    run_jobs env files watermark output_dir false aggregate_output w = (Returned results, w1) ∧
    results ≡ₚ success_result output_dir <$> files ∧
    Forall (λ r, r !! "success" = Some (PBool true)) results.
Proof.
  intros Henv Hsup.
  destruct (run_jobs_per_file env files watermark output_dir aggregate_output w) as [w1 Hrun].
  eexists _, w1. split; [exact Hrun|].
  assert (futures_of env files watermark output_dir w
          = (λ f, Returned (success_result output_dir f)) <$> files) as ->.
  { unfold futures_of, echo. munfold.
    edestruct (submit_all_healthy env watermark output_dir files) as [w2 ->]; done. }
  rewrite as_completed_perm, <- list_fmap_compose.
  split; [done|].
  apply Forall_fmap, Forall_forall. intros f _. simpl.
  unfold success_result. by simplify_map_eq.
Qed.

Lemma per_file_all_succeed_witness :
  ∃ results w1,
    run_jobs env_ok ["docs/bill.pdf"; "docs/scan.PNG"; "docs/id.heic"] "wm" "out" false
      "all.pdf" world0 = (Returned results, w1) ∧
    results ≡ₚ success_result "out" <$> ["docs/bill.pdf"; "docs/scan.PNG"; "docs/id.heic"] ∧
    Forall (λ r, r !! "success" = Some (PBool true)) results.
Proof.
  apply (per_file_all_succeed env_ok ["docs/bill.pdf"; "docs/scan.PNG"; "docs/id.heic"] "wm"
           "out" "all.pdf" world0).
  - repeat split.
    + intros history payload watermark. eexists _, _, _. repeat split; reflexivity.
    + intros history token. eexists. split; reflexivity.
    + intros history token. eexists. split; reflexivity.
  - repeat constructor; by eexists.
Defined.

(** ** The whole command *)

Lemma collect_supported_files_run folder names w :
  ∃ out,
    collect_supported_files folder (inr names) w =
    (Returned (filter (λ e, kept e = true) (entries_of folder names)).*1,
     {| fs := fs w; handles := handles w; trace := trace w; stdout := stdout w ++ out |}).
Proof.
  unfold collect_supported_files, echo. munfold. fold (entries_of folder names).
  edestruct (collect_loop_spec (entries_of folder names) []) as [out ->]. simpl.
  eexists. by rewrite <- app_assoc.
Qed.

Lemma kept_entries_length folder names :
  length (filter (λ e, kept e = true) (entries_of folder names)) =
  length (filter (λ entry, kept (path_join folder entry.1, entry.2) = true) names).
Proof.
  unfold entries_of. rewrite sorted_paths_perm.
  induction names as [|entry rest IH]; [done|].
  rewrite fmap_cons, !filter_cons. simpl.
  destruct (decide (kept (path_join folder entry.1, entry.2) = true)); simpl; by rewrite IH.
Qed.

(** X19: when the folder holds no regular file with a supported extension,
    the command prints "No supported files found." and stops: it opens
    nothing, sends nothing and writes nothing. *)
Theorem main_entry_nothing_to_do env folder watermark output_dir aggregate aggregate_output
    names w :
  Forall (λ entry, kept (path_join folder entry.1, entry.2) = false) names →
  ∃ w1,
    main_entry env folder watermark output_dir aggregate aggregate_output None (inr names) w
      = (Returned tt, w1) ∧
    trace w1 = trace w ∧ fs w1 = fs w ∧ handles w1 = handles w ∧
    last (stdout w1) = Some ("No supported files found." +:+ nl).
Proof.
  intros Hnone.
  assert (filter (λ e, kept e = true) (entries_of folder names) = []) as Hempty.
  { apply length_zero_iff_nil. rewrite kept_entries_length.
    induction Hnone as [|entry rest Hentry _ IH]; [done|].
    rewrite filter_cons_False by congruence. done. }
  unfold main_entry. unfold echo at 1. munfold.
  edestruct (collect_supported_files_run folder names) as [out ->]. rewrite Hempty. simpl.
  unfold echo. simpl. eexists. repeat split. simpl. apply last_snoc.
Qed.

Lemma main_entry_nothing_to_do_witness :
  ∃ w1,
    main_entry env_ok "docs" "wm" None false "all.pdf" None
      (inr [("notes.txt", true); ("filigrane", false); (".pdf", true)]) world0
      = (Returned tt, w1) ∧
    trace w1 = trace world0 ∧ fs w1 = fs world0 ∧ handles w1 = handles world0 ∧
    last (stdout w1) = Some ("No supported files found." +:+ nl).
Proof.
  apply (main_entry_nothing_to_do env_ok "docs" "wm" None false "all.pdf").
  repeat constructor.
Defined.

(** X20: in per-file mode, once the output directory exists and the folder
    can be listed, the command ends normally and its report has exactly one
    line per regular file of the folder with a supported extension. *)
Theorem main_entry_per_file_report env folder watermark output_dir aggregate_output names w :
  filter (λ entry, kept (path_join folder entry.1, entry.2) = true) names ≠ [] →
  ∃ lines w1 w2,
    main_entry env folder watermark output_dir false aggregate_output None (inr names) w
      = (Returned tt, w2) ∧
    length lines =
      length (filter (λ entry, kept (path_join folder entry.1, entry.2) = true) names) ∧
    stdout w2 = stdout w1 ++ [(nl +:+ "📄 Results:") +:+ nl]
                ++ ((λ line, line +:+ nl) <$> lines) ++ [(nl +:+ "🎉 Done!") +:+ nl].
Proof.
  intros Hsome.
  set (files := (filter (λ e, kept e = true) (entries_of folder names)).*1).
  assert (length files =
          length (filter (λ entry, kept (path_join folder entry.1, entry.2) = true) names))
    as Hlen by (unfold files; by rewrite length_fmap, kept_entries_length).
  assert (files ≠ []) as Hne.
  { intros Hnil. rewrite Hnil in Hlen. simpl in Hlen.
    symmetry in Hlen. by apply length_zero_iff_nil in Hlen. }
  unfold main_entry. unfold echo at 1. munfold.
  edestruct (collect_supported_files_run folder names) as [out ->]. fold files.
  match goal with |- context [main env files watermark ?dir false aggregate_output ?w0] =>
    destruct (run_jobs_per_file env files watermark dir aggregate_output w0) as [w1 Hrun];
    destruct (futures_of_spec env files watermark dir w0) as [Hflen Hrep];
    assert (Forall reportable
              (recorded <$> as_completed env (futures_of env files watermark dir w0))) as Hrep'
      by (apply Forall_fmap; by rewrite as_completed_perm);
    destruct (main_report _ _ _ _ _ _ _ _ _ Hne Hrun Hrep')
      as (lines & w2 & Hmain & Hlines & Hout) end.
  exists lines, w1, w2. split; [exact Hmain|]. split; [|done].
  apply Forall2_length in Hlines.
  rewrite <- Hlines, length_fmap, as_completed_perm, Hflen. done.
Qed.

Lemma main_entry_per_file_report_witness :
  ∃ lines w1 w2,
    main_entry env_fetch_404 "docs" "wm" None false "all.pdf" None (inr listing0) world0
      = (Returned tt, w2) ∧
    length lines =
      length (filter (λ entry, kept (path_join "docs" entry.1, entry.2) = true) listing0) ∧
    stdout w2 = stdout w1 ++ [(nl +:+ "📄 Results:") +:+ nl]
                ++ ((λ line, line +:+ nl) <$> lines) ++ [(nl +:+ "🎉 Done!") +:+ nl].
Proof.
  apply (main_entry_per_file_report env_fetch_404 "docs" "wm" None "all.pdf" listing0 world0).
  vm_compute. done.
Defined.



(** ** Failures of the service *)

(** X21: whatever the service answers, a job whose output file can be
    written does not raise: it returns a dictionary with its file names, a
    flag and a message. *)
Theorem process_files_returns_when_disk_ok env files watermark out_path w :
  (∀ history data, env_write env history out_path data = WriteOk) →
  ∃ r w1 msg b,
    process_files env files watermark out_path w = (Returned r, w1) ∧
    r !! "files" = Some (PNames (path_name <$> files)) ∧
    r !! "success" = Some (PBool b) ∧ r !! "msg" = Some (PStr msg).
Proof.
  intros Hdisk.
  destruct (process_files env files watermark out_path w) as [[e|r] w1] eqn:Hrun.
  - apply process_files_raises_in_write in Hrun as (history & data & Hwr).
    by destruct (Hwr (Hdisk history data)).
  - apply process_files_names in Hrun as (Hfiles & msg & b & Hmsg & Hsucc).
    by exists r, w1, msg, b.
Qed.

Lemma process_files_returns_when_disk_ok_witness :
  ∃ r w1 msg b,
    process_files env_fetch_404 ["docs/bill.pdf"] "wm" "out/bill.pdf" world0 = (Returned r, w1) ∧
    r !! "files" = Some (PNames (path_name <$> ["docs/bill.pdf"])) ∧
    r !! "success" = Some (PBool b) ∧ r !! "msg" = Some (PStr msg).
Proof.
  apply (process_files_returns_when_disk_ok env_fetch_404 ["docs/bill.pdf"] "wm" "out/bill.pdf"
           world0).
  done.
Defined.


